(** * Agent hook scripts: the performance monitor and the result validator

  A shallow embedding of [hooks/agent-performance-monitor.py] and of
  [validate_agent_result] from [hooks/agent-result-validator.py], with the
  properties of the metrics recorder stated and proved over it.

  Conventions of the embedding.
  - A Python [str] is a Rocq [string], read as a sequence of code points
    below 256; [len] is [String.length].
  - Python values of dynamic type (the metrics document, the event payload)
    are values of [pyval]; a [dict] is an association list in insertion
    order, its keys being strings as in every JSON document.
  - A function that can raise returns [res]; a function that touches the
    metrics file, the clock or the error stream is a computation of the
    monad [M] over [World].
  - A Python [float] is represented by the rational it denotes; the rounding
    of binary64 division is not modelled. *)

From Stdlib Require Import String Ascii List ZArith QArith Lia Bool.
From Stdlib Require Import DecimalString.
Import ListNotations.
Set Warnings "-register-all".
Close Scope Q_scope.
Open Scope string_scope.
Open Scope Z_scope.

(* ===================================================================== *)
(** * Python strings *)
(* ===================================================================== *)

Module PyStr.

Definition code (c : ascii) : Z := Z.of_N (N_of_ascii c).

Definition chr (n : Z) : ascii := ascii_of_N (Z.to_N n).

(** [str.isspace] on one code point below 256: TAB..CR, FS..US, SPACE,
    NEL and NBSP. [str.split()] and [str.strip()] use this set. *)
Definition is_space (c : ascii) : bool :=
  let n := code c in
  ((9 <=? n) && (n <=? 13)) || ((28 <=? n) && (n <=? 32))
  || (n =? 133) || (n =? 160).

(** The upper-case letters below 256: A..Z and the Latin-1 capitals
    0xC0..0xDE without the multiplication sign 0xD7. *)
Definition is_upper (c : ascii) : bool :=
  let n := code c in
  ((65 <=? n) && (n <=? 90))
  || ((192 <=? n) && (n <=? 222) && negb (n =? 215)).

Definition lower_char (c : ascii) : ascii :=
  if is_upper c then chr (code c + 32) else c.

(** [s.lower()], on strings of code points below 256, where it maps each
    character to one character. (On other text Python's [lower] can change
    the length: U+0130 becomes two code points.) *)
Fixpoint lower (s : string) : string :=
  match s with
  | EmptyString => EmptyString
  | String c s' => String (lower_char c) (lower s')
  end.

Definition starts_word (s : string) : bool :=
  match s with
  | EmptyString => false
  | String c _ => negb (is_space c)
  end.

(** [s.split()]: the maximal runs of non-whitespace, in order. *)
Fixpoint split (s : string) : list string :=
  match s with
  | EmptyString => []
  | String c s' =>
      if is_space c then split s'
      else if starts_word s' then
        match split s' with
        | w :: ws => String c w :: ws
        | [] => [String c EmptyString]
        end
      else String c EmptyString :: split s'
  end.

(** [s[:n]] *)
Fixpoint take (n : nat) (s : string) : string :=
  match n, s with
  | S n', String c s' => String c (take n' s')
  | _, _ => EmptyString
  end.

Fixpoint lstrip (s : string) : string :=
  match s with
  | String c s' => if is_space c then lstrip s' else s
  | EmptyString => EmptyString
  end.

Definition rev (s : string) : string :=
  string_of_list_ascii (List.rev (list_ascii_of_string s)).

Definition rstrip (s : string) : string := rev (lstrip (rev s)).

(** [s.strip()] *)
Definition strip (s : string) : string := rstrip (lstrip s).

(** [s.split(sep)] for a one-character separator: one more piece than
    there are separators. *)
Fixpoint split_on (sep : ascii) (s : string) : list string :=
  match s with
  | EmptyString => [EmptyString]
  | String c s' =>
      if Ascii.eqb c sep then EmptyString :: split_on sep s'
      else match split_on sep s' with
           | w :: ws => String c w :: ws
           | [] => [String c EmptyString]
           end
  end.

Definition len (s : string) : Z := Z.of_nat (String.length s).

(** [n] copies of the character [c]. *)
Fixpoint repeat (c : ascii) (n : nat) : string :=
  match n with
  | O => EmptyString
  | S n' => String c (repeat c n')
  end.

End PyStr.

(* ===================================================================== *)
(** * [estimate_task_complexity] *)
(* ===================================================================== *)

(** Python dictionaries keep insertion order: association lists. *)
Fixpoint assoc {V : Type} (k : string) (d : list (string * V)) : option V :=
match d with
| [] => None
| (k', v) :: d' => if String.eqb k k' then Some v else assoc k d'
end.

Definition complexity_keywords : list (string * Z) :=
[ ("implement", 3); ("create", 3); ("build", 4); ("design", 4);
  ("refactor", 3); ("migrate", 4); ("integrate", 4);
  ("fix", 2); ("update", 2); ("modify", 2);
  ("analyze", 2); ("review", 2); ("document", 2);
  ("test", 2); ("debug", 3); ("optimize", 3) ].

(** One turn of the loop over the words. *)
Definition raise_to_keyword (base_complexity : Z) (word : string) : Z :=
match assoc word complexity_keywords with
| Some weight => Z.max base_complexity weight
| None => base_complexity
end.

Definition estimate_task_complexity (task_description : string) : Z :=
let words := PyStr.split (PyStr.lower task_description) in
let base_complexity := fold_left raise_to_keyword words 1 in
let base_complexity :=
  if 200 <? PyStr.len task_description
  then base_complexity + 1 else base_complexity in
Z.min base_complexity 5.

(* ===================================================================== *)
(** * Naive datetimes *)
(* ===================================================================== *)

Module Datetime.

(** A [datetime.datetime] without time zone: its seven fields. *)
Record datetime : Type := mk {
  year : Z; month : Z; day : Z;
  hour : Z; minute : Z; second : Z; microsecond : Z }.

Definition is_leap (y : Z) : bool :=
  ((y mod 4 =? 0) && negb (y mod 100 =? 0)) || (y mod 400 =? 0).

Definition days_in_month (y m : Z) : Z :=
  if (m =? 2) then (if is_leap y then 29 else 28)
  else if (m =? 4) || (m =? 6) || (m =? 9) || (m =? 11) then 30
  else 31.

Definition between (lo x hi : Z) : bool := (lo <=? x) && (x <=? hi).

(** The values the constructor of [datetime] accepts. *)
Definition valid (d : datetime) : bool :=
  between 1 (year d) 9999 && between 1 (month d) 12
  && between 1 (day d) (days_in_month (year d) (month d))
  && between 0 (hour d) 23 && between 0 (minute d) 59
  && between 0 (second d) 59 && between 0 (microsecond d) 999999.

Definition digit_char (v : Z) : ascii := PyStr.chr (48 + v).

(** [v] printed on [n] decimal digits, the most significant first. *)
Fixpoint pad (n : nat) (v : Z) : string :=
  match n with
  | O => EmptyString
  | S n' => String (digit_char (v / 10 ^ Z.of_nat n'))
                   (pad n' (v mod 10 ^ Z.of_nat n'))
  end.

(** [d.strftime("%Y-%m-%d")], the year on four digits (as every platform
    prints the years from 1000 on). *)
Definition strftime_ymd (d : datetime) : string :=
  pad 4 (year d) ++ "-" ++ pad 2 (month d) ++ "-" ++ pad 2 (day d).

(** [d.isoformat()]: the fraction is printed only when it is not zero. *)
Definition isoformat (d : datetime) : string :=
  strftime_ymd d ++ "T" ++ pad 2 (hour d) ++ ":" ++ pad 2 (minute d)
  ++ ":" ++ pad 2 (second d)
  ++ (if microsecond d =? 0 then "" else "." ++ pad 6 (microsecond d)).

Definition digit_of (c : ascii) : option Z :=
  let n := PyStr.code c in
  if between 48 n 57 then Some (n - 48) else None.

(** Reads exactly [n] decimal digits. *)
Fixpoint take_num (n : nat) (acc : Z) (s : string) : option (Z * string) :=
  match n with
  | O => Some (acc, s)
  | S n' =>
      match s with
      | EmptyString => None
      | String c s' =>
          match digit_of c with
          | Some v => take_num n' (acc * 10 + v) s'
          | None => None
          end
      end
  end.

Definition expect (c : ascii) (s : string) : option string :=
  match s with
  | String c' s' => if Ascii.eqb c c' then Some s' else None
  | EmptyString => None
  end.

Definition checked (d : datetime) : option datetime :=
  if valid d then Some d else None.

(** The fraction of a second: three or six digits. *)
Definition parse_fraction (s : string) : option Z :=
  match take_num 6 0 s with
  | Some (us, EmptyString) => Some us
  | _ => match take_num 3 0 s with
         | Some (ms, EmptyString) => Some (ms * 1000)
         | _ => None
         end
  end.

(** [HH[:MM[:SS[.fff[fff]]]]], given the date. *)
Definition parse_time (y m d : Z) (s : string) : option datetime :=
  match take_num 2 0 s with
  | None => None
  | Some (h, EmptyString) => checked (mk y m d h 0 0 0)
  | Some (h, s1) =>
      match expect ":" s1 with
      | None => None
      | Some s2 =>
          match take_num 2 0 s2 with
          | None => None
          | Some (mi, EmptyString) => checked (mk y m d h mi 0 0)
          | Some (mi, s3) =>
              match expect ":" s3 with
              | None => None
              | Some s4 =>
                  match take_num 2 0 s4 with
                  | None => None
                  | Some (sec, EmptyString) => checked (mk y m d h mi sec 0)
                  | Some (sec, s5) =>
                      match expect "." s5 with
                      | None => None
                      | Some s6 =>
                          match parse_fraction s6 with
                          | Some us => checked (mk y m d h mi sec us)
                          | None => None
                          end
                      end
                  end
              end
          end
      end
  end.

(** [datetime.fromisoformat(s)] on the strings that denote a naive value,
    [YYYY-MM-DD[*HH[:MM[:SS[.fff[fff]]]]]] where [*] is any one character;
    [None] is [ValueError]. A string that carries a UTC offset parses, in
    Python, to an aware value whose comparison with the naive cutoff raises
    [TypeError]; it is rejected here as well, so that in both readings the
    caller sees an exception. *)
Definition fromisoformat (s : string) : option datetime :=
  match take_num 4 0 s with
  | None => None
  | Some (y, s1) =>
      match expect "-" s1 with
      | None => None
      | Some s2 =>
          match take_num 2 0 s2 with
          | None => None
          | Some (m, s3) =>
              match expect "-" s3 with
              | None => None
              | Some s4 =>
                  match take_num 2 0 s4 with
                  | None => None
                  | Some (d, EmptyString) => checked (mk y m d 0 0 0 0)
                  | Some (d, String _ s5) => parse_time y m d s5
                  end
              end
          end
      end
  end.

(** [d - timedelta(hours=24)]: the same time of day one calendar day
    earlier; [None] is the [OverflowError] raised before year 1. *)
Definition minus_24h (d : datetime) : option datetime :=
  let with_date y m dd :=
    mk y m dd (hour d) (minute d) (second d) (microsecond d) in
  if 1 <? day d then Some (with_date (year d) (month d) (day d - 1))
  else if 1 <? month d then
    Some (with_date (year d) (month d - 1)
                    (days_in_month (year d) (month d - 1)))
  else if 1 <? year d then Some (with_date (year d - 1) 12 31)
  else None.

Definition fields (d : datetime) : list Z :=
  [year d; month d; day d; hour d; minute d; second d; microsecond d].

Fixpoint lex_gt (a b : list Z) : bool :=
  match a, b with
  | x :: a', y :: b' => (y <? x) || ((x =? y) && lex_gt a' b')
  | _, _ => false
  end.

(** [a > b] on naive values: lexicographic on the fields. *)
Definition gt (a b : datetime) : bool := lex_gt (fields a) (fields b).

End Datetime.

Export Datetime(datetime).

(* ===================================================================== *)
(** * Python values and exceptions *)
(* ===================================================================== *)

(** The exception classes the scripts can meet. [KeyError] keeps the key. *)
Inductive exn : Type :=
| KeyError (key : string)
| TypeError
| ValueError
| AttributeError
| OverflowError
| OSError
| JSONDecodeError.

Inductive res (A : Type) : Type :=
| Ok (a : A)
| Raise (e : exn).

Arguments Ok {A} a.
Arguments Raise {A} e.

Definition res_bind {A B : Type} (r : res A) (k : A -> res B) : res B :=
  match r with
  | Ok a => k a
  | Raise e => Raise e
  end.

Declare Scope res_scope.
Delimit Scope res_scope with res.
Notation "x <- r ;; k" := (res_bind r (fun x => k))
  (at level 61, r at next level, right associativity) : res_scope.

Inductive pyval : Type :=
| PNone
| PBool (b : bool)
| PInt (z : Z)
| PFloat (q : Q)
| PStr (s : string)
| PList (l : list pyval)
| PSet (l : list pyval)
| PDict (d : list (string * pyval)).

(** [d[k] = v] on a dictionary: the value of an existing key is replaced in
    place, a new key goes to the end. *)
Fixpoint dict_set {V : Type} (k : string) (v : V) (d : list (string * V))
  : list (string * V) :=
  match d with
  | [] => [(k, v)]
  | (k', v') :: d' =>
      if String.eqb k k' then (k, v) :: d' else (k', v') :: dict_set k v d'
  end.

Definition has_key {V : Type} (k : string) (d : list (string * V)) : bool :=
  match assoc k d with Some _ => true | None => false end.

Module Py.

(** [v[k]] for a string [k] *)
Definition getitem (v : pyval) (k : string) : res pyval :=
  match v with
  | PDict d => match assoc k d with
               | Some x => Ok x
               | None => Raise (KeyError k)
               end
  | _ => Raise TypeError
  end.

(** [v[k] = x] for a string [k] *)
Definition setitem (v : pyval) (k : string) (x : pyval) : res pyval :=
  match v with
  | PDict d => Ok (PDict (dict_set k x d))
  | _ => Raise TypeError
  end.

(** [v.get(k, default)] *)
Definition get (v : pyval) (k : string) (default : pyval) : res pyval :=
  match v with
  | PDict d => match assoc k d with
               | Some x => Ok x
               | None => Ok default
               end
  | _ => Raise AttributeError
  end.

(** The object reached by [v[k]] is mutated in place by [f]; [v] sees it. *)
Definition at_key (k : string) (f : pyval -> res pyval) (v : pyval)
  : res pyval :=
  (x <- getitem v k ;;
   x' <- f x ;;
   setitem v k x')%res.

Definition is_str (s : string) (v : pyval) : bool :=
  match v with
  | PStr t => String.eqb s t
  | _ => false
  end.

Definition is_substring (s t : string) : bool :=
  match String.index 0 s t with
  | Some _ => true
  | None => false
  end.

(** [s in v] for a string [s] *)
Definition contains (s : string) (v : pyval) : res bool :=
  match v with
  | PDict d => Ok (has_key s d)
  | PList l | PSet l => Ok (existsb (is_str s) l)
  | PStr t => Ok (is_substring s t)
  | _ => Raise TypeError
  end.

Definition int_of_bool (b : bool) : Z := if b then 1 else 0.

(** [v + n] for an integer [n], as in [v += 1] *)
Definition add_int (v : pyval) (n : Z) : res pyval :=
  match v with
  | PInt z => Ok (PInt (z + n))
  | PBool b => Ok (PInt (int_of_bool b + n))
  | PFloat q => Ok (PFloat (Qplus q (inject_Z n)))
  | _ => Raise TypeError
  end.

(** The number a value is, if it is one. *)
Definition as_Q (v : pyval) : option Q :=
  match v with
  | PInt z => Some (inject_Z z)
  | PBool b => Some (inject_Z (int_of_bool b))
  | PFloat q => Some q
  | _ => None
  end.

Definition Qltb (a b : Q) : bool :=
  match Qcompare a b with Lt => true | _ => false end.

(** [v > n] for an integer [n] *)
Definition gt_int (v : pyval) (n : Z) : res bool :=
  match as_Q v with
  | Some q => Ok (Qltb (inject_Z n) q)
  | None => Raise TypeError
  end.

(** [v < n] for an integer [n] *)
Definition lt_int (v : pyval) (n : Z) : res bool :=
  match as_Q v with
  | Some q => Ok (Qltb q (inject_Z n))
  | None => Raise TypeError
  end.

(** [v.append]: only lists have the method. The attribute is looked up
    before the argument of the call is evaluated. *)
Definition append_method (v : pyval) : res (pyval -> pyval) :=
  match v with
  | PList l => Ok (fun x => PList (l ++ [x]))
  | _ => Raise AttributeError
  end.

(** [v + l] for a list [l] *)
Definition add_list (v : pyval) (l : list pyval) : res pyval :=
  match v with
  | PList l0 => Ok (PList (l0 ++ l))
  | _ => Raise TypeError
  end.

Definition hashable (v : pyval) : bool :=
  match v with
  | PList _ | PSet _ | PDict _ => false
  | _ => true
  end.

(** [a == b] on hashable values: numbers compare by value across [bool],
    [int] and [float]. *)
Definition eqb (a b : pyval) : bool :=
  match a, b with
  | PNone, PNone => true
  | PStr s, PStr t => String.eqb s t
  | _, _ => match as_Q a, as_Q b with
            | Some x, Some y => Qeq_bool x y
            | _, _ => false
            end
  end.

(** The elements of a set built from [l]: one of each class of equal
    elements. The order in which Python iterates over a set is not
    specified; here the last of each class is kept, in the order of [l]. *)
Fixpoint distinct (l : list pyval) : list pyval :=
  match l with
  | [] => []
  | x :: l' => if existsb (eqb x) l' then distinct l' else x :: distinct l'
  end.

(** [list(set(l))] *)
Definition set_of (l : list pyval) : res (list pyval) :=
  if forallb hashable l then Ok (distinct l) else Raise TypeError.

(** [for x in v] *)
Definition iter (v : pyval) : res (list pyval) :=
  match v with
  | PList l | PSet l => Ok l
  | PDict d => Ok (map (fun kv => PStr (fst kv)) d)
  | PStr s => Ok (map (fun c => PStr (String c EmptyString))
                      (list_ascii_of_string s))
  | _ => Raise TypeError
  end.

(** [len(v)] *)
Definition len (v : pyval) : res Z :=
  match v with
  | PList l | PSet l => Ok (Z.of_nat (length l))
  | PDict d => Ok (Z.of_nat (length d))
  | PStr s => Ok (PyStr.len s)
  | _ => Raise TypeError
  end.

Definition lastn {A : Type} (n : nat) (l : list A) : list A :=
  skipn (length l - n) l.

(** The elements of [v[-5:]]. Sets and numbers are not subscriptable; a
    dictionary takes no slice as a key. *)
Definition last5 (v : pyval) : res (list pyval) :=
  match v with
  | PList l => Ok (lastn 5 l)
  | PStr s => Ok (map (fun c => PStr (String c EmptyString))
                      (lastn 5 (list_ascii_of_string s)))
  | _ => Raise TypeError
  end.

(** [bool(v)] *)
Definition truthy (v : pyval) : bool :=
  match v with
  | PNone => false
  | PBool b => b
  | PInt z => negb (z =? 0)
  | PFloat q => negb (Qeq_bool q (inject_Z 0))
  | PStr s => negb (String.eqb s EmptyString)
  | PList l | PSet l => match l with [] => false | _ => true end
  | PDict d => match d with [] => false | _ => true end
  end.

(** [[f(x) for x in l]] *)
Fixpoint mapM {A B : Type} (f : A -> res B) (l : list A) : res (list B) :=
  match l with
  | [] => Ok []
  | x :: l' =>
      (y <- f x ;;
       ys <- mapM f l' ;;
       Ok (y :: ys))%res
  end.

(** [[x for x in l if p(x)]] *)
Fixpoint filterM {A : Type} (p : A -> res bool) (l : list A)
  : res (list A) :=
  match l with
  | [] => Ok []
  | x :: l' =>
      (b <- p x ;;
       xs <- filterM p l' ;;
       Ok (if b then x :: xs else xs))%res
  end.

(** [sum(l)]: an [int] until the first [float] is met. *)
Inductive number : Type :=
| NInt (z : Z)
| NFloat (q : Q).

Definition num_add (a : number) (v : pyval) : res number :=
  match a, v with
  | NInt x, PInt z => Ok (NInt (x + z))
  | NInt x, PBool b => Ok (NInt (x + int_of_bool b))
  | NInt x, PFloat q => Ok (NFloat (Qplus (inject_Z x) q))
  | NFloat x, PInt z => Ok (NFloat (Qplus x (inject_Z z)))
  | NFloat x, PBool b => Ok (NFloat (Qplus x (inject_Z (int_of_bool b))))
  | NFloat x, PFloat q => Ok (NFloat (Qplus x q))
  | _, _ => Raise TypeError
  end.

Fixpoint sum_from (a : number) (l : list pyval) : res number :=
  match l with
  | [] => Ok a
  | v :: l' => (a' <- num_add a v ;; sum_from a' l')%res
  end.

Definition sum (l : list pyval) : res number := sum_from (NInt 0) l.

Definition num_Q (a : number) : Q :=
  match a with
  | NInt z => inject_Z z
  | NFloat q => q
  end.

(** [a / n] for the length [n > 0] of a list: true division, a [float]. *)
Definition truediv (a : number) (n : Z) : pyval :=
  PFloat (Qred (Qdiv (num_Q a) (inject_Z n))).

(** [datetime.fromisoformat(v)] *)
Definition fromisoformat (v : pyval) : res datetime :=
  match v with
  | PStr s => match Datetime.fromisoformat s with
              | Some d => Ok d
              | None => Raise ValueError
              end
  | _ => Raise TypeError
  end.

(** What [json.dump] can write: no set anywhere inside. *)
Fixpoint serializable (v : pyval) : bool :=
  match v with
  | PSet _ => false
  | PList l => forallb serializable l
  | PDict d => forallb (fun kv => serializable (snd kv)) d
  | _ => true
  end.

End Py.

(* ===================================================================== *)
(** * The world of the script: metrics file, clock, error stream *)
(* ===================================================================== *)

(** What is at [METRICS_FILE]: nothing, a text [json.load] rejects, or a
    text [json.load] reads as the value [v]. *)
Inductive disk_file : Type :=
| NoFile
| Unparseable
| Document (v : pyval).

(** The lines the scripts print on the error stream. *)
Inductive log_line : Type :=
| FailedToSaveMetrics (e : exn)
| MonitoringError (e : exn)
| Recording (agent_name : string)
| AgentCalls (total_calls avg_complexity : pyval)
| Suggestion (text : string).

(** [now] is what the next [datetime.now()] returns, [later] what the
    following ones return; once [later] is used up the clock stands still.
    [readable] and [writable] say whether opening the file for reading, and
    creating its directory and opening it for writing, succeed. *)
Record World : Type := mkWorld {
  disk : disk_file;
  readable : bool;
  writable : bool;
  now : datetime;
  later : list datetime;
  stderr : list log_line }.

(** The file cannot be used: there is none, it cannot be opened, or its
    text is no JSON. *)
Definition unusable (w : World) : Prop :=
  disk w = NoFile \/ readable w = false \/ disk w = Unparseable.

Definition M (A : Type) : Type := World -> res A * World.

Definition ret {A : Type} (a : A) : M A := fun w => (Ok a, w).

Definition raise {A : Type} (e : exn) : M A := fun w => (Raise e, w).

Definition bind {A B : Type} (c : M A) (k : A -> M B) : M B :=
  fun w =>
    match c w with
    | (Ok a, w') => k a w'
    | (Raise e, w') => (Raise e, w')
    end.

(** A pure expression that may raise, inside a computation. *)
Definition lift {A : Type} (r : res A) : M A := fun w => (r, w).

(** [try: body except: handler] *)
Definition try_except {A : Type} (body : M A) (handler : exn -> M A) : M A :=
  fun w =>
    match body w with
    | (Ok a, w') => (Ok a, w')
    | (Raise e, w') => handler e w'
    end.

Declare Scope M_scope.
Delimit Scope M_scope with M.
Notation "x <- c ;; k" := (bind c (fun x => k))
  (at level 61, c at next level, right associativity) : M_scope.
Notation "x <~ r ;; k" := (bind (lift r) (fun x => k))
  (at level 61, r at next level, right associativity) : M_scope.
Notation "c ;; k" := (bind c (fun _ => k))
  (at level 61, right associativity) : M_scope.

Module Sys.

(** [datetime.now()] *)
Definition datetime_now : M datetime :=
  fun w =>
    (Ok (now w),
     match later w with
     | [] => w
     | t :: ts =>
         mkWorld (disk w) (readable w) (writable w) t ts (stderr w)
     end).

(** The world once the clock has been read. *)
Definition tick (w : World) : World := snd (datetime_now w).

(** What the [n]-th reading of the clock from now on returns, the next
    one being reading 0. *)
Fixpoint reading (n : nat) (w : World) : datetime :=
  match n with
  | O => now w
  | S n' => reading n' (tick w)
  end.

Definition set_disk (f : disk_file) (w : World) : World :=
  mkWorld f (readable w) (writable w) (now w) (later w) (stderr w).

(** [print(line, file=sys.stderr)] *)
Definition print_err (line : log_line) : M unit :=
  fun w =>
    (Ok tt,
     mkWorld (disk w) (readable w) (writable w) (now w) (later w)
             (stderr w ++ [line])).

(** [os.path.exists(METRICS_FILE)] *)
Definition path_exists : M bool :=
  fun w => (Ok (match disk w with NoFile => false | _ => true end), w).

(** [open(METRICS_FILE, 'r')] followed by [json.load(f)] *)
Definition open_and_json_load : M pyval :=
  fun w =>
    if readable w then
      match disk w with
      | Document v => (Ok v, w)
      | Unparseable => (Raise JSONDecodeError, w)
      | NoFile => (Raise OSError, w)
      end
    else (Raise OSError, w).

(** [os.makedirs(..., exist_ok=True)] followed by [open(METRICS_FILE, 'w')]:
    on success the file exists and is empty. *)
Definition makedirs_and_open_w : M unit :=
  fun w =>
    if writable w then (Ok tt, set_disk Unparseable w)
    else (Raise OSError, w).

(** [json.dump(v, f, indent=2)] into the file just opened. The encoder
    writes as it goes: on a value it cannot serialize the file is left with
    the text written so far, which is no JSON document. *)
Definition json_dump (v : pyval) : M unit :=
  fun w =>
    if Py.serializable v then (Ok tt, set_disk (Document v) w)
    else (Raise TypeError, set_disk Unparseable w).

End Sys.

(* ===================================================================== *)
(** * [agent-performance-monitor.py] *)
(* ===================================================================== *)

Open Scope M_scope.

Definition fresh_metrics (t : datetime) : pyval :=
  PDict [ ("agents", PDict []);
          ("daily_stats", PDict []);
          ("last_cleanup", PStr (Datetime.isoformat t)) ].

(** The [try] block of [load_metrics]: [Some v] when it returns [v],
    [None] when control falls out of it. *)
Definition load_metrics_try : M (option pyval) :=
  try_except
    (present <- Sys.path_exists ;;
     if (present : bool) then
       v <- Sys.open_and_json_load ;;
       ret (Some v)
     else ret None)
    (fun _ => ret None).

Definition load_metrics : M pyval :=
  r <- load_metrics_try ;;
  match r with
  | Some v => ret v
  | None =>
      t <- Sys.datetime_now ;;
      ret (fresh_metrics t)
  end.

Definition save_metrics (metrics : pyval) : M unit :=
  try_except
    (Sys.makedirs_and_open_w ;;
     Sys.json_dump metrics)
    (fun e => Sys.print_err (FailedToSaveMetrics e)).

Definition new_agent_stats : pyval :=
  PDict [ ("total_calls", PInt 0);
          ("recent_calls", PList []);
          ("avg_complexity", PInt 0) ].

Definition new_daily_stats : pyval :=
  PDict [ ("total_calls", PInt 0);
          ("agents_used", PSet []);
          ("parallel_sessions", PInt 0) ].

(** [if key not in metrics[section]: metrics[section][key] = init] *)
Definition ensure_entry (section key : string) (init metrics : pyval)
  : res pyval :=
  (entries <- Py.getitem metrics section ;;
   present <- Py.contains key entries ;;
   if (present : bool) then Ok metrics
   else Py.at_key section (fun entries => Py.setitem entries key init)
                  metrics)%res.

(** [x[k] += 1] *)
Definition increment (k : string) (x : pyval) : res pyval :=
  (n <- Py.getitem x k ;;
   n' <- Py.add_int n 1 ;;
   Py.setitem x k n')%res.

Definition call_record (t : datetime) (task_description : string) : pyval :=
  PDict [ ("timestamp", PStr (Datetime.isoformat t));
          ("task", PStr (PyStr.take 100 task_description));
          ("complexity", PInt (estimate_task_complexity task_description)) ].

(** [datetime.fromisoformat(call["timestamp"]) > cutoff] *)
Definition is_recent (cutoff : datetime) (call : pyval) : res bool :=
  (ts <- Py.getitem call "timestamp" ;;
   t <- Py.fromisoformat ts ;;
   Ok (Datetime.gt t cutoff))%res.

Definition minus_24h (t : datetime) : res datetime :=
  match Datetime.minus_24h t with
  | Some c => Ok c
  | None => Raise OverflowError
  end.

(** The body of [if agent_stats["recent_calls"]:]. *)
Definition update_average (agent_stats : pyval) : res pyval :=
  (recent_calls <- Py.getitem agent_stats "recent_calls" ;;
   if Py.truthy recent_calls then
     calls <- Py.iter recent_calls ;;
     complexities <- Py.mapM (fun call => Py.getitem call "complexity") calls ;;
     total <- Py.sum complexities ;;
     Py.setitem agent_stats "avg_complexity"
       (Py.truediv total (Z.of_nat (length complexities)))
   else Ok agent_stats)%res.

(** [agent_stats] and [daily] name objects inside [metrics]; what the code
    does to them in place is written back into [metrics] before it is saved
    and returned. Nothing else can observe the order of these writes: when a
    step raises, [metrics] is dropped with the frame of the call. *)
Definition record_agent_invocation (agent_name task_description : string)
  : M pyval :=
  metrics <- load_metrics ;;
  t_today <- Sys.datetime_now ;;
  let today := Datetime.strftime_ymd t_today in
  (* Initialize agent stats *)
  metrics <~ ensure_entry "agents" agent_name new_agent_stats metrics ;;
  (* Initialize daily stats *)
  metrics <~ ensure_entry "daily_stats" today new_daily_stats metrics ;;
  (* Record invocation *)
  agents <~ Py.getitem metrics "agents" ;;
  agent_stats <~ Py.getitem agents agent_name ;;
  agent_stats <~ increment "total_calls" agent_stats ;;
  recent_calls <~ Py.getitem agent_stats "recent_calls" ;;
  append <~ Py.append_method recent_calls ;;
  t_call <- Sys.datetime_now ;;
  agent_stats <~ Py.setitem agent_stats "recent_calls"
                   (append (call_record t_call task_description)) ;;
  (* Keep only recent calls (last 24 hours) *)
  t_cut <- Sys.datetime_now ;;
  cutoff <~ minus_24h t_cut ;;
  recent_calls <~ Py.getitem agent_stats "recent_calls" ;;
  calls <~ Py.iter recent_calls ;;
  kept <~ Py.filterM (is_recent cutoff) calls ;;
  agent_stats <~ Py.setitem agent_stats "recent_calls" (PList kept) ;;
  (* Update daily stats *)
  days <~ Py.getitem metrics "daily_stats" ;;
  daily <~ Py.getitem days today ;;
  daily <~ increment "total_calls" daily ;;
  used <~ Py.get daily "agents_used" (PList []) ;;
  used <~ Py.add_list used [PStr agent_name] ;;
  used <~ Py.iter used ;;
  used <~ Py.set_of used ;;
  daily <~ Py.setitem daily "agents_used" (PList used) ;;
  (* Calculate average complexity *)
  agent_stats <~ update_average agent_stats ;;
  metrics <~ Py.at_key "agents"
               (fun agents => Py.setitem agents agent_name agent_stats)
               metrics ;;
  metrics <~ Py.at_key "daily_stats"
               (fun days => Py.setitem days today daily) metrics ;;
  save_metrics metrics ;;
  ret metrics.

Definition COMBINE_SIMPLE_TASKS : string :=
  "Consider combining simple tasks to reduce overhead".

Definition REPETITIVE_TASKS : string :=
  "Detected repetitive tasks - consider batch processing".

(** The first check: high frequency of simple tasks. *)
Definition high_frequency (agent_stats : pyval) : res (list string) :=
  (total_calls <- Py.get agent_stats "total_calls" (PInt 0) ;;
   many <- Py.gt_int total_calls 10 ;;
   if (many : bool) then
     avg_complexity <- Py.get agent_stats "avg_complexity" (PInt 0) ;;
     simple <- Py.lt_int avg_complexity 2 ;;
     Ok (if (simple : bool) then [COMBINE_SIMPLE_TASKS] else [])
   else Ok [])%res.

(** The second check: the same tasks again and again. *)
Definition pattern_analysis (agent_stats : pyval) : res (list string) :=
  (recent_calls <- Py.get agent_stats "recent_calls" (PList []) ;;
   n <- Py.len recent_calls ;;
   if 5 <? n then
     last_calls <- Py.last5 recent_calls ;;
     recent_tasks <- Py.mapM (fun call => Py.getitem call "task") last_calls ;;
     tasks <- Py.set_of recent_tasks ;;
     Ok (if Z.of_nat (length tasks) <? 3 then [REPETITIVE_TASKS] else [])
   else Ok [])%res.

Definition suggest_optimizations (metrics : pyval) (agent_name : string)
  : res (list string) :=
  (agents <- Py.getitem metrics "agents" ;;
   agent_stats <- Py.get agents agent_name (PDict []) ;;
   s1 <- high_frequency agent_stats ;;
   s2 <- pattern_analysis agent_stats ;;
   Ok (s1 ++ s2)%list)%res.

(** What [json.load(sys.stdin)] finds: [None] when the input is no JSON. *)
Definition json_load_stdin (stdin : option pyval) : res pyval :=
  match stdin with
  | Some data => Ok data
  | None => Raise JSONDecodeError
  end.

(** The [:.1f] of the report needs a number. *)
Definition format_1f (v : pyval) : res pyval :=
  match v with
  | PInt _ | PBool _ | PFloat _ => Ok v
  | PStr _ => Raise ValueError
  | _ => Raise TypeError
  end.

Fixpoint print_suggestions (l : list string) : M unit :=
  match l with
  | [] => ret tt
  | s :: l' => Sys.print_err (Suggestion s) ;; print_suggestions l'
  end.

(** The event names the agent and the task as strings (the input contract
    of the hooks); a payload that puts a value of another type there is
    outside this embedding, and [as_text] gives [None] on it. *)
Definition as_text (v : pyval) : option string :=
  match v with
  | PStr s => Some s
  | _ => None
  end.

(** The [try] block of the script. The outer [option] is [None] on a
    payload outside the embedding. *)
Definition main_try (stdin : option pyval) : option (M unit) :=
  match json_load_stdin stdin with
  | Raise e => Some (raise e)
  | Ok data =>
      match Py.get data "tool_name" (PStr "") with
      | Raise e => Some (raise e)
      | Ok tool_name =>
          if Py.eqb tool_name (PStr "Task") then
            match Py.get data "tool_input" (PDict []) with
            | Raise e => Some (raise e)
            | Ok tool_input =>
                match Py.get tool_input "subagent_type" (PStr "unknown"),
                      Py.get tool_input "prompt" (PStr "") with
                | Raise e, _ | _, Raise e => Some (raise e)
                | Ok a, Ok t =>
                    match as_text a, as_text t with
                    | Some agent_name, Some task_description =>
                        Some
                          (Sys.print_err (Recording agent_name) ;;
                           metrics <- record_agent_invocation
                                        agent_name task_description ;;
                           suggestions <~ suggest_optimizations
                                            metrics agent_name ;;
                           agents <~ Py.getitem metrics "agents" ;;
                           agent_stats <~ Py.getitem agents agent_name ;;
                           total_calls <~ Py.getitem agent_stats
                                            "total_calls" ;;
                           avg <~ Py.getitem agent_stats "avg_complexity" ;;
                           avg <~ format_1f avg ;;
                           Sys.print_err (AgentCalls total_calls avg) ;;
                           print_suggestions suggestions)
                    | _, _ => None
                    end
                end
            end
          else Some (ret tt)
      end
  end.

(** The script: the exit status of the process, and the world it leaves.
    The handler prints the error and calls [sys.exit(0)]; when nothing is
    raised the interpreter reaches the end of the file and exits with 0. *)
Definition main (stdin : option pyval) (w : World)
  : option (Z * World) :=
  match main_try stdin with
  | None => None
  | Some body =>
      match body w with
      | (Ok tt, w') => Some (0, w')
      | (Raise e, w') =>
          let (_, w'') := Sys.print_err (MonitoringError e) w' in
          Some (0, w'')
      end
  end.

Close Scope M_scope.

(* ===================================================================== *)
(** * [agent-result-validator.py]: [validate_agent_result] *)
(* ===================================================================== *)

Module Validator.

Definition UNIVERSAL_FORBIDDEN : list string :=
  [ "TODO:|FIXME:";
    "backwards? compatib";
    "in a real (implementation|app|application|world|scenario)";
    "console\.log" ].

Record criteria : Type := mkCriteria {
  required_patterns : list string;
  forbidden_patterns : list string;
  min_lines : Z }.

Definition QUALITY_GATES : list (string * criteria) :=
  [ ("backend-database-engineer",
     mkCriteria
       ["migration|schema|query|database|server|action|api|endpoint|route"]
       [] 5);
    ("frontend-ui-specialist",
     mkCriteria ["component|jsx?|tsx?|css"] ["alert\("] 10);
    ("code-quality-reviewer",
     mkCriteria ["test|spec|coverage|lint"] ["skipped|disabled|ignored"] 3);
    ("feature-architect-planner",
     mkCriteria ["## |### |\* "] ["I think|Maybe|Perhaps"] 20) ].

Definition decimal (z : Z) : string :=
  DecimalString.NilZero.string_of_int (Z.to_int z).

Definition newline : ascii := PyStr.chr 10.

Section WithRegex.

(** [re.search(pattern, text, re.IGNORECASE)] finds a match. The regular
    expression engine belongs to the Python library. *)
Variable re_search : string -> string -> bool.

Definition validate_agent_result (agent_name result_text : string)
  : bool * string :=
  if String.eqb result_text EmptyString
     || (PyStr.len (PyStr.strip result_text) <? 10)
  then (false, "Output too short or empty")
  else
    match assoc agent_name QUALITY_GATES with
    | None => (true, "No specific criteria defined")
    | Some criteria =>
        (* Check minimum length *)
        let lines := PyStr.split_on newline result_text in
        let n := Z.of_nat (length lines) in
        if n <? min_lines criteria then
          (false, "Output too short: " ++ decimal n ++ " lines, need "
                  ++ decimal (min_lines criteria))
        else
          (* Check required patterns *)
          match find (fun pattern => negb (re_search pattern result_text))
                     (required_patterns criteria) with
          | Some pattern =>
              (false, "Missing required content pattern: " ++ pattern)
          | None =>
              (* Check forbidden patterns (universal + agent-specific) *)
              let forbidden :=
                (UNIVERSAL_FORBIDDEN ++ forbidden_patterns criteria)%list in
              match find (fun pattern => re_search pattern result_text)
                         forbidden with
              | Some pattern =>
                  (false, "Contains forbidden pattern: " ++ pattern)
              | None => (true, "Quality gates passed")
              end
          end
    end.

End WithRegex.

End Validator.

(* ===================================================================== *)
(** * The metrics store as the data model describes it *)
(* ===================================================================== *)

Module Store.

Record CallRecord : Type := mkCall {
  timestamp : datetime;
  task : string;
  complexity : Z }.

Record AgentStats : Type := mkAgent {
  total_calls : Z;
  recent_calls : list CallRecord;
  avg_complexity : Py.number }.

Record DailyStats : Type := mkDaily {
  day_total_calls : Z;
  agents_used : list string;
  parallel_sessions : Z }.

Record MetricsStore : Type := mkStore {
  agents : list (string * AgentStats);
  daily_stats : list (string * DailyStats);
  last_cleanup : datetime }.

Definition of_number (n : Py.number) : pyval :=
  match n with
  | Py.NInt z => PInt z
  | Py.NFloat q => PFloat q
  end.

Definition of_call (c : CallRecord) : pyval :=
  PDict [ ("timestamp", PStr (Datetime.isoformat (timestamp c)));
          ("task", PStr (task c));
          ("complexity", PInt (complexity c)) ].

Definition of_agent (a : AgentStats) : pyval :=
  PDict [ ("total_calls", PInt (total_calls a));
          ("recent_calls", PList (map of_call (recent_calls a)));
          ("avg_complexity", of_number (avg_complexity a)) ].

Definition of_daily (d : DailyStats) : pyval :=
  PDict [ ("total_calls", PInt (day_total_calls d));
          ("agents_used", PList (map PStr (agents_used d)));
          ("parallel_sessions", PInt (parallel_sessions d)) ].

Definition of_entries {V : Type} (f : V -> pyval) (d : list (string * V))
  : list (string * pyval) :=
  map (fun kv => (fst kv, f (snd kv))) d.

(** The Python value of a store: the dictionary the script holds in
    [metrics] and writes to the file. *)
Definition to_py (s : MetricsStore) : pyval :=
  PDict [ ("agents", PDict (of_entries of_agent (agents s)));
          ("daily_stats", PDict (of_entries of_daily (daily_stats s)));
          ("last_cleanup", PStr (Datetime.isoformat (last_cleanup s))) ].

(** The store with no agent and no day. *)
Definition empty (t : datetime) : MetricsStore := mkStore [] [] t.

Definition lt_2 (n : Py.number) : bool := Py.Qltb (Py.num_Q n) (inject_Z 2).

(** The number of distinct task strings among the last five calls. *)
Definition distinct_recent_tasks (a : AgentStats) : Z :=
  Z.of_nat (length (nodup string_dec
                      (map task (Py.lastn 5 (recent_calls a))))).

(** More than 10 calls, of an average complexity below 2. *)
Definition many_simple_calls (a : AgentStats) : bool :=
  (10 <? total_calls a) && lt_2 (avg_complexity a).

(** More than 5 recent calls, the last five for fewer than 3 tasks. *)
Definition repeats_tasks (a : AgentStats) : bool :=
  (5 <? Z.of_nat (length (recent_calls a)))
  && (distinct_recent_tasks a <? 3).

(** Every time stamp of the store is a value [datetime] can hold. *)
Definition valid_timestamps (s : MetricsStore) : bool :=
  forallb (fun kv => forallb (fun c => Datetime.valid (timestamp c))
                             (recent_calls (snd kv)))
          (agents s).

(** The agent as line 41 of the script creates it. *)
Definition zero_agent : AgentStats := mkAgent 0 [] (Py.NInt 0).

(** The day as the data model wants it created, its agents a list. *)
Definition zero_day : DailyStats := mkDaily 0 [] 0.

Definition sum_complexity (l : list CallRecord) : Z :=
  fold_left Z.add (map complexity l) 0.

(** The arithmetic mean of the complexities, a [float]. *)
Definition mean_complexity (l : list CallRecord) : Py.number :=
  Py.NFloat (Qred (Qdiv (inject_Z (sum_complexity l))
                        (inject_Z (Z.of_nat (length l))))).

Definition new_call (t : datetime) (task_description : string) : CallRecord :=
  mkCall t (PyStr.take 100 task_description)
         (estimate_task_complexity task_description).

Definition within_window (cutoff : datetime) (c : CallRecord) : bool :=
  Datetime.gt (timestamp c) cutoff.

(** The agent's statistics after one more call at [t_call], the window
    starting after [cutoff]. *)
Definition record_agent (t_call cutoff : datetime)
  (task_description : string) (a : AgentStats) : AgentStats :=
  let kept :=
    filter (within_window cutoff)
           (recent_calls a ++ [new_call t_call task_description]) in
  mkAgent (total_calls a + 1) kept
          (match kept with
           | [] => avg_complexity a
           | _ => mean_complexity kept
           end).

Definition record_day (agent_name : string) (d : DailyStats) : DailyStats :=
  mkDaily (day_total_calls d + 1)
          (nodup string_dec (agents_used d ++ [agent_name]))
          (parallel_sessions d).

(** What one invocation makes of a store that has an entry for [today]:
    the typed reading of lines 39 to 79 of the script. *)
Definition record (agent_name task_description today : string)
  (t_call cutoff : datetime) (s : MetricsStore) : option MetricsStore :=
  match assoc today (daily_stats s) with
  | None => None
  | Some d =>
      let a := match assoc agent_name (agents s) with
               | Some a => a
               | None => zero_agent
               end in
      Some (mkStore
              (dict_set agent_name
                 (record_agent t_call cutoff task_description a) (agents s))
              (dict_set today (record_day agent_name d) (daily_stats s))
              (last_cleanup s))
  end.

End Store.

(* ===================================================================== *)
(** * Scenarios *)
(* ===================================================================== *)

Module Scenario.

Import Store.

(** 4 November 2026, 09:30, and 25 hours later. *)
Definition t1 : datetime := Datetime.mk 2026 11 4 9 30 0 0.
Definition t2 : datetime := Datetime.mk 2026 11 5 10 30 0 0.

(** A world with the given file, a readable and writable location, and a
    clock that stands at [t]. *)
Definition world_at (f : disk_file) (t : datetime) : World :=
  mkWorld f true true t [] [].

(** No metrics file yet: the empty store. *)
Definition first_run : World := world_at NoFile t1.

(** The same world 25 hours later: what the first call left, clock moved. *)
Definition a_day_later (w : World) : World :=
  mkWorld (disk w) (readable w) (writable w) t2 [] (stderr w).

(** A store in which both days already have their (zeroed) entries. *)
Definition both_days : MetricsStore :=
  mkStore [] [("2026-11-04", zero_day); ("2026-11-05", zero_day)] t1.

(** The file holds the JSON document [{}]. *)
Definition braces : World := world_at (Document (PDict [])) t1.

(** The event that announces a task for [agent_name]. *)
Definition task_event (agent_name task_description : string) : pyval :=
  PDict [ ("tool_name", PStr "Task");
          ("tool_input",
           PDict [ ("subagent_type", PStr agent_name);
                   ("prompt", PStr task_description) ]) ].

Definition same_task (n : nat) : list CallRecord :=
  List.repeat (mkCall t1 "run the linter" 1) n.

(** Five recent calls, all for the same task. *)
Definition five_equal_agent : AgentStats :=
  mkAgent 5 (same_task 5) (Py.NFloat 1).

Definition five_equal : MetricsStore :=
  mkStore [("agentX", five_equal_agent)] [] t1.

(** Six recent calls, all for the same task. *)
Definition six_equal_agent : AgentStats :=
  mkAgent 6 (same_task 6) (Py.NFloat 1).

Definition six_equal : MetricsStore :=
  mkStore [("agentX", six_equal_agent)] [] t1.

(** [agentX] has 11 calls of average complexity 1.5. *)
Definition eleven_simple : MetricsStore :=
  mkStore [("agentX", mkAgent 11 [] (Py.NFloat (3 # 2)))] [] t1.

(** [agentX] has 10 calls of average complexity 1.5. *)
Definition ten_simple : MetricsStore :=
  mkStore [("agentX", mkAgent 10 [] (Py.NFloat (3 # 2)))] [] t1.

(** 250 characters, none of them a space. *)
Definition long_text : string := PyStr.repeat "x"%char 250.

End Scenario.

(* ===================================================================== *)
(** * [agent-result-validator.py]: the script *)
(* ===================================================================== *)

Module ResultValidator.

(** The lines the validator prints on the error stream. *)
Inductive line : Type :=
| Validating (agent_name : string)
| Passed (message : string)
| GateFailed (message : string)
| ConsiderRefining
| ValidationError (e : exn).

(** [str(v)] where it is a matter of a few characters: a string is itself,
    [None], the booleans and the integers print as Python writes them. The
    text of a float or of a container is outside this embedding. *)
Definition str_of (v : pyval) : option string :=
  match v with
  | PStr s => Some s
  | PNone => Some "None"
  | PBool true => Some "True"
  | PBool false => Some "False"
  | PInt z => Some (Validator.decimal z)
  | _ => None
  end.

Section WithRegex.

Variable re_search : string -> string -> bool.

(** What is printed once the agent and the text of its result are known. *)
Definition report (agent_name result_text : string) : list line :=
  let (is_valid, message) :=
    Validator.validate_agent_result re_search agent_name result_text in
  Validating agent_name
  :: (if is_valid then [Passed message]
      else [GateFailed message; ConsiderRefining]).

(** The [try] block of the script: the lines it prints, or the exception
    it raises before it has printed anything. The outer [option] is [None]
    on a payload outside the embedding (an agent that is not a string, a
    result whose text [str_of] does not give). *)
Definition main_try (stdin : option pyval) : option (res (list line)) :=
  match json_load_stdin stdin with
  | Raise e => Some (Raise e)
  | Ok data =>
      match Py.get data "tool_name" (PStr "") with
      | Raise e => Some (Raise e)
      | Ok tool_name =>
          if Py.eqb tool_name (PStr "Task") then
            match Py.get data "tool_input" (PDict []),
                  Py.get data "tool_result" (PStr "") with
            | Raise e, _ | _, Raise e => Some (Raise e)
            | Ok tool_input, Ok tool_result =>
                match Py.get tool_input "subagent_type" (PStr "unknown") with
                | Raise e => Some (Raise e)
                | Ok agent_name =>
                    match as_text agent_name, str_of tool_result with
                    | Some agent_name, Some result_text =>
                        Some (Ok (report agent_name result_text))
                    | _, _ => None
                    end
                end
            end
          else Some (Ok [])
      end
  end.

(** The script: exit status and error stream. *)
Definition main (stdin : option pyval) : option (Z * list line) :=
  match main_try stdin with
  | None => None
  | Some (Ok lines) => Some (0, lines)
  | Some (Raise e) => Some (0, [ValidationError e])
  end.

End WithRegex.

End ResultValidator.

(* ===================================================================== *)
(** * [file-content-validator.py]: [validate_file_content] *)
(* ===================================================================== *)

Module FileValidator.

Definition FILE_FORBIDDEN : list string :=
  [ "TODO:";
    "FIXME:";
    "console\.log\(.*\);?\s*$";
    "alert\(";
    "debugger;?";
    "backwards?\s+compatib";
    "compatib.*layer";
    "for\s+compatib";
    "legacy\s+support";
    "//.*compatib";
    "/\*.*compatib.*\*/" ].

Definition nl : string := String Validator.newline EmptyString.

(** ["\n".join(l)] *)
Fixpoint join_lines (l : list string) : string :=
  match l with
  | [] => EmptyString
  | [x] => x
  | x :: l' => x ++ nl ++ join_lines l'
  end.

Section WithRegex.

(** [re.search(pattern, line, re.IGNORECASE)]: the text of the match,
    [match.group(0)], when there is one. *)
Variable re_match : string -> string -> option string.

(** The inner loop: one violation for each pattern found in the line. *)
Definition line_violations (line_num : Z) (line : string) : list string :=
  flat_map
    (fun pattern =>
       match re_match pattern line with
       | Some matched_text =>
           ["Line " ++ Validator.decimal line_num ++ ": '"
            ++ PyStr.strip matched_text ++ "'"]
       | None => []
       end)
    FILE_FORBIDDEN.

(** The outer loop, the lines being numbered from [line_num] on; empty
    lines and lines of whitespace are skipped. *)
Fixpoint violations_from (line_num : Z) (lines : list string)
  : list string :=
  match lines with
  | [] => []
  | line :: lines' =>
      ((if String.eqb (PyStr.strip line) EmptyString then []
        else line_violations line_num line)
       ++ violations_from (line_num + 1) lines')%list
  end.

Definition validate_file_content (file_path content : string)
  : bool * string :=
  if String.eqb content EmptyString then (true, "Empty file")
  else
    let lines := PyStr.split_on Validator.newline content in
    match violations_from 1 lines with
    | [] => (true, "File content validated")
    | violations =>
        (false, "Code quality violations:" ++ nl ++ join_lines violations)
    end.

End WithRegex.

End FileValidator.

(* ===================================================================== *)
(** * [file-content-validator.py]: [should_validate_file] *)
(* ===================================================================== *)

Module FilePath.

Definition code_extensions : list string :=
  [ ".js"; ".jsx"; ".ts"; ".tsx"; ".py"; ".go"; ".rs"; ".java";
    ".c"; ".cpp"; ".h"; ".hpp"; ".php"; ".rb"; ".swift"; ".kt" ].

(** [c in s] for a character [c] *)
Definition mentions (c : ascii) (s : string) : bool :=
  existsb (Ascii.eqb c) (list_ascii_of_string s).

(** The last component of a POSIX path: what follows the last slash. *)
Definition basename (p : string) : string :=
  last (PyStr.split_on "/" p) EmptyString.

Fixpoint skip_dots (s : string) : string :=
  match s with
  | String c s' => if Ascii.eqb c "." then skip_dots s' else s
  | EmptyString => EmptyString
  end.

(** The second component of [os.path.splitext(p)] on a POSIX system: from
    the last dot of the last component of the path on, the leading dots of
    that component not being counted; empty when there is no such dot. *)
Definition extension (p : string) : string :=
  let pieces := PyStr.split_on "." (skip_dots (basename p)) in
  if (1 <? length pieces)%nat then String "." (last pieces EmptyString)
  else EmptyString.

Definition should_validate_file (file_path : string) : bool :=
  let ext := extension (PyStr.lower file_path) in
  existsb (String.eqb ext) code_extensions.

End FilePath.

(* ===================================================================== *)
(** * Predicates of the statements *)
(* ===================================================================== *)

Module Run.

Import Store.

(** A call as the recorder writes it: a time stamp [datetime] can hold, a
    task of at most 100 characters, a complexity from 1 to 5. *)
Definition well_formed_call (c : CallRecord) : bool :=
  Datetime.valid (timestamp c)
  && (PyStr.len (task c) <=? 100)
  && (1 <=? complexity c) && (complexity c <=? 5).

Definition well_formed (s : MetricsStore) : bool :=
  forallb (fun kv => forallb well_formed_call (recent_calls (snd kv)))
          (agents s).

(** The file holds the store [s], which has an entry for the day the clock
    shows; the next readings of the clock are dates [datetime] can hold,
    and [cutoff] is 24 hours before the third. *)
Definition ready (s : MetricsStore) (cutoff : datetime) (w : World) : Prop :=
  readable w = true
  /\ disk w = Document (to_py s)
  /\ well_formed s = true
  /\ has_key (Datetime.strftime_ymd (Sys.reading 0 w)) (daily_stats s) = true
  /\ Datetime.valid (Sys.reading 1 w) = true
  /\ Datetime.minus_24h (Sys.reading 2 w) = Some cutoff.

(** The statistics of an agent, those of a new agent when the store does
    not know it. *)
Definition stats_of (name : string) (s : MetricsStore) : AgentStats :=
  match assoc name (agents s) with
  | Some a => a
  | None => zero_agent
  end.

(** The store after one invocation in the world [w], as [Store.record]
    gives it; the store itself when it has no entry for the day. *)
Definition after (agent_name task_description : string) (cutoff : datetime)
  (s : MetricsStore) (w : World) : MetricsStore :=
  match Store.record agent_name task_description
          (Datetime.strftime_ymd (Sys.reading 0 w)) (Sys.reading 1 w)
          cutoff s with
  | Some s' => s'
  | None => s
  end.

(** The day of a store, a zeroed day when the store does not have it. *)
Definition day_of (today : string) (s : MetricsStore) : DailyStats :=
  match assoc today (daily_stats s) with
  | Some d => d
  | None => zero_day
  end.

(** A computation that leaves the file and the error stream alone. *)
Definition quiet {A : Type} (c : M A) : Prop :=
  forall w, disk (snd (c w)) = disk w /\ stderr (snd (c w)) = stderr w.

(** A computation that, when it raises, has left the file and the error
    stream alone. *)
Definition fails_quietly {A : Type} (c : M A) : Prop :=
  forall w e w',
    c w = (Raise e, w') -> disk w' = disk w /\ stderr w' = stderr w.

(** A store that is ready, on 4 November 2026 at 09:30: [agentX] has one
    call of the evening before and one of two days before. *)
Definition busy : MetricsStore :=
  mkStore
    [ ("agentX",
       mkAgent 7
         [ mkCall (Datetime.mk 2026 11 2 8 0 0 0) "fix the build" 2;
           mkCall (Datetime.mk 2026 11 3 21 15 0 0) "design the cache" 4 ]
         (Py.NFloat 3));
      ("agentY", mkAgent 3 [] (Py.NInt 0)) ]
    [ ("2026-11-03", mkDaily 4 ["agentX"; "agentY"] 0);
      ("2026-11-04", mkDaily 2 ["agentY"] 0) ]
    (Datetime.mk 2026 10 1 0 0 0 0).

Definition busy_world : World :=
  Scenario.world_at (Document (to_py busy)) Scenario.t1.

Definition busy_cutoff : datetime := Datetime.mk 2026 11 3 9 30 0 0.

End Run.

(* ===================================================================== *)
(** * Properties of the string functions *)
(* ===================================================================== *)

Section Strings.

Import PyStr.

Lemma is_space_lower_char (c : ascii) :
  is_space (lower_char c) = is_space c.
Proof. destruct c as [[] [] [] [] [] [] [] []]; reflexivity. Qed.

Lemma starts_word_lower (s : string) :
  starts_word (lower s) = starts_word s.
Proof. destruct s; simpl; [reflexivity | now rewrite is_space_lower_char]. Qed.

(** Lower-casing the text and then splitting it gives the lower-cased
    words of the text. *)
Lemma split_lower (s : string) :
  split (lower s) = map lower (split s).
Proof.
  induction s as [| c s IH]; simpl; [reflexivity |].
  rewrite is_space_lower_char, starts_word_lower, IH.
  destruct (is_space c); [reflexivity |].
  destruct (starts_word s); [| reflexivity].
  destruct (split s); reflexivity.
Qed.

Lemma length_repeat (c : ascii) (n : nat) :
  String.length (PyStr.repeat c n) = n.
Proof. induction n; simpl; congruence. Qed.

End Strings.

(* ===================================================================== *)
(** * Properties of [estimate_task_complexity] *)
(* ===================================================================== *)

Section Complexity.

Lemma assoc_In {V : Type} (k : string) (v : V) (d : list (string * V)) :
  assoc k d = Some v -> In (k, v) d.
Proof.
  induction d as [| [k' v'] d IH]; simpl; [discriminate |].
  destruct (String.eqb_spec k k') as [-> | _].
  - intros [= ->]. now left.
  - intros H. right. now apply IH.
Qed.

(** Every weight of the mapping lies between 2 and 4. *)
Lemma keyword_weight (word : string) (weight : Z) :
  assoc word complexity_keywords = Some weight -> 2 <= weight <= 4.
Proof.
  intros H. apply assoc_In in H.
  assert (F : Forall (fun kv : string * Z => 2 <= snd kv <= 4)
                     complexity_keywords)
    by (unfold complexity_keywords; repeat constructor; simpl; lia).
  rewrite Forall_forall in F. exact (F _ H).
Qed.

Lemma raise_to_keyword_bounds (b : Z) (word : string) :
  b <= raise_to_keyword b word <= Z.max b 4.
Proof.
  unfold raise_to_keyword.
  destruct (assoc word complexity_keywords) as [k |] eqn:E; [| lia].
  apply keyword_weight in E. lia.
Qed.

(** The loop never lowers the running value and never exceeds 4. *)
Lemma loop_bounds (words : list string) (b : Z) :
  b <= fold_left raise_to_keyword words b <= Z.max b 4.
Proof.
  revert b. induction words as [| w ws IH]; intros b; simpl; [lia |].
  specialize (IH (raise_to_keyword b w)).
  pose proof (raise_to_keyword_bounds b w). lia.
Qed.

(** A keyword among the words lifts the running value to its weight. *)
Lemma loop_reaches_weight (words : list string) (word : string)
  (weight b : Z) :
  In word words -> assoc word complexity_keywords = Some weight ->
  weight <= fold_left raise_to_keyword words b.
Proof.
  revert b. induction words as [| w ws IH]; intros b HIn HK; simpl.
  - destruct HIn.
  - destruct HIn as [-> | HIn].
    + pose proof (loop_bounds ws (raise_to_keyword b word)) as Hb.
      assert (E : raise_to_keyword b word = Z.max b weight)
        by (unfold raise_to_keyword; now rewrite HK).
      lia.
    + now apply IH.
Qed.

(** Without keywords the running value stays where it is. *)
Lemma loop_without_keywords (words : list string) (b : Z) :
  (forall w, In w words -> assoc w complexity_keywords = None) ->
  fold_left raise_to_keyword words b = b.
Proof.
  revert b. induction words as [| w ws IH]; intros b H; simpl; [reflexivity |].
  assert (E : raise_to_keyword b w = b)
    by (unfold raise_to_keyword; now rewrite (H w (or_introl eq_refl))).
  rewrite E. apply IH. intros w' Hw'. apply H. now right.
Qed.

End Complexity.

(** C4. A text that contains a keyword of the weight mapping as one of its
    whitespace-delimited tokens, lower-cased, is estimated at no less than
    the weight of that keyword; and every text is estimated within the
    range 1 to 5, bounds included. *)
Theorem estimate_task_complexity_bounds :
  (forall (text keyword : string) (weight : Z),
      In keyword (map PyStr.lower (PyStr.split text)) ->
      assoc keyword complexity_keywords = Some weight ->
      weight <= estimate_task_complexity text)
  /\ (forall text : string, 1 <= estimate_task_complexity text <= 5).
Proof.
  split.
  - intros text keyword weight HIn HK.
    unfold estimate_task_complexity. rewrite split_lower.
    pose proof (loop_reaches_weight _ _ _ 1 HIn HK) as Hw.
    pose proof (keyword_weight _ _ HK).
    destruct (200 <? PyStr.len text); lia.
  - intros text. unfold estimate_task_complexity.
    pose proof (loop_bounds (PyStr.split (PyStr.lower text)) 1).
    destruct (200 <? PyStr.len text); lia.
Qed.

Lemma estimate_task_complexity_bounds_witness :
  In "build" (map PyStr.lower (PyStr.split "Please BUILD the parser"))
  /\ assoc "build" complexity_keywords = Some 4
  /\ 4 <= estimate_task_complexity "Please BUILD the parser"
  /\ 1 <= estimate_task_complexity "Please BUILD the parser" <= 5.
Proof.
  assert (HIn : In "build"
                   (map PyStr.lower (PyStr.split "Please BUILD the parser")))
    by (vm_compute; tauto).
  assert (HK : assoc "build" complexity_keywords = Some 4) by reflexivity.
  repeat split; try assumption.
  - exact (proj1 estimate_task_complexity_bounds _ _ _ HIn HK).
  - apply (proj2 estimate_task_complexity_bounds).
  - apply (proj2 estimate_task_complexity_bounds).
Defined.

(** C9. A task description of 250 characters none of whose tokens is a
    keyword of the weight mapping is estimated at exactly 2: the base
    complexity 1 plus 1 for a text longer than 200 characters. *)
Theorem estimate_long_text_without_keywords (text : string) :
  String.length text = 250%nat ->
  (forall word, In word (map PyStr.lower (PyStr.split text)) ->
                assoc word complexity_keywords = None) ->
  estimate_task_complexity text = 2.
Proof.
  intros Hlen Hnone. unfold estimate_task_complexity, PyStr.len.
  rewrite split_lower, (loop_without_keywords _ 1 Hnone), Hlen.
  reflexivity.
Qed.

Lemma estimate_long_text_without_keywords_witness :
  String.length Scenario.long_text = 250%nat
  /\ estimate_task_complexity Scenario.long_text = 2.
Proof.
  split; [reflexivity |].
  apply estimate_long_text_without_keywords; [reflexivity |].
  vm_compute. intros word [<- | []]. reflexivity.
Defined.

(** C10. Whatever the agent, with or without quality criteria of its own,
    a result that is empty, or whose length after stripping whitespace is
    below 10, is rejected with "Output too short or empty"; the criteria of
    the agent are not looked at. *)
Theorem validate_rejects_short_output
  (re_search : string -> string -> bool) (agent_name result_text : string) :
  result_text = "" \/ PyStr.len (PyStr.strip result_text) < 10 ->
  Validator.validate_agent_result re_search agent_name result_text
  = (false, "Output too short or empty").
Proof.
  intros H. unfold Validator.validate_agent_result.
  destruct H as [-> | H]; [reflexivity |].
  apply Z.ltb_lt in H. rewrite H, orb_true_r. reflexivity.
Qed.

Lemma validate_rejects_short_output_witness :
  PyStr.len (PyStr.strip "   done.   ") < 10
  /\ Validator.validate_agent_result (fun _ _ => true)
       "frontend-ui-specialist" "   done.   "
     = (false, "Output too short or empty").
Proof.
  assert (H : PyStr.len (PyStr.strip "   done.   ") < 10)
    by (vm_compute; reflexivity).
  split; [exact H |].
  apply validate_rejects_short_output. right. exact H.
Defined.

(* ===================================================================== *)
(** * Python values of typed stores *)
(* ===================================================================== *)

Section Encoding.

Import Store.

Lemma assoc_of_entries {V : Type} (f : V -> pyval) (k : string)
  (d : list (string * V)) :
  assoc k (of_entries f d) = option_map f (assoc k d).
Proof.
  induction d as [| [k' v] d IH]; simpl; [reflexivity |].
  destruct (String.eqb k k'); [reflexivity | exact IH].
Qed.

Lemma has_key_of_entries {V : Type} (f : V -> pyval) (k : string)
  (d : list (string * V)) :
  has_key k (of_entries f d) = has_key k d.
Proof.
  unfold has_key. rewrite assoc_of_entries. now destruct (assoc k d).
Qed.

Lemma dict_set_of_entries {V : Type} (f : V -> pyval) (k : string) (v : V)
  (d : list (string * V)) :
  dict_set k (f v) (of_entries f d) = of_entries f (dict_set k v d).
Proof.
  induction d as [| [k' v'] d IH]; simpl; [reflexivity |].
  destruct (String.eqb k k'); simpl; [reflexivity | now rewrite IH].
Qed.

Lemma Qltb_inject_Z (a b : Z) :
  Py.Qltb (inject_Z a) (inject_Z b) = (a <? b).
Proof.
  unfold Py.Qltb, Qcompare, Z.ltb. simpl. now rewrite !Z.mul_1_r.
Qed.

Lemma Qltb_lt (a b : Q) : Py.Qltb a b = true <-> (a < b)%Q.
Proof.
  unfold Py.Qltb. rewrite Qlt_alt.
  destruct (a ?= b)%Q; split; congruence.
Qed.

Lemma as_Q_of_number (n : Py.number) :
  Py.as_Q (of_number n) = Some (Py.num_Q n).
Proof. now destruct n. Qed.

Lemma lastn_map {A B : Type} (f : A -> B) (n : nat) (l : list A) :
  Py.lastn n (map f l) = map f (Py.lastn n l).
Proof. unfold Py.lastn. now rewrite length_map, skipn_map. Qed.

Lemma mapM_task (l : list CallRecord) :
  Py.mapM (fun call => Py.getitem call "task") (map of_call l)
  = Ok (map PStr (map task l)).
Proof.
  induction l as [| c l IH]; [reflexivity |].
  cbn [map Py.mapM]. rewrite IH. reflexivity.
Qed.

Lemma mapM_complexity (l : list CallRecord) :
  Py.mapM (fun call => Py.getitem call "complexity") (map of_call l)
  = Ok (map PInt (map complexity l)).
Proof.
  induction l as [| c l IH]; [reflexivity |].
  cbn [map Py.mapM]. rewrite IH. reflexivity.
Qed.

Lemma existsb_eqb_PStr (x : string) (l : list string) :
  existsb (Py.eqb (PStr x)) (map PStr l) = true <-> In x l.
Proof.
  rewrite existsb_exists. split.
  - intros [v [HIn E]]. apply in_map_iff in HIn as [y [<- HIn]].
    simpl in E. apply String.eqb_eq in E. now subst.
  - intros HIn. exists (PStr x). split; [now apply in_map |].
    simpl. apply String.eqb_refl.
Qed.

(** The set of a list of strings holds each of them once. *)
Lemma distinct_strings (l : list string) :
  Py.distinct (map PStr l) = map PStr (nodup string_dec l).
Proof.
  induction l as [| x l IH]; [reflexivity |].
  cbn [map Py.distinct nodup].
  destruct (in_dec string_dec x l) as [HIn | HNo].
  - apply existsb_eqb_PStr in HIn. rewrite HIn. exact IH.
  - destruct (existsb (Py.eqb (PStr x)) (map PStr l)) eqn:E.
    + apply existsb_eqb_PStr in E. contradiction.
    + cbn [map]. now rewrite IH.
Qed.

Lemma set_of_strings (l : list string) :
  Py.set_of (map PStr l) = Ok (map PStr (nodup string_dec l)).
Proof.
  unfold Py.set_of.
  assert (H : forallb Py.hashable (map PStr l) = true)
    by (induction l; simpl; auto).
  rewrite H. now rewrite distinct_strings.
Qed.

Lemma high_frequency_of_agent (a : AgentStats) :
  high_frequency (of_agent a)
  = Ok (if many_simple_calls a then [COMBINE_SIMPLE_TASKS] else []).
Proof.
  unfold high_frequency, many_simple_calls, lt_2, of_agent.
  cbn [Py.get assoc String.eqb Ascii.eqb Bool.eqb res_bind].
  unfold Py.gt_int, Py.lt_int. cbn [Py.as_Q res_bind].
  rewrite Qltb_inject_Z, as_Q_of_number.
  destruct (10 <? total_calls a); reflexivity.
Qed.

Lemma pattern_analysis_of_agent (a : AgentStats) :
  pattern_analysis (of_agent a)
  = Ok (if repeats_tasks a then [REPETITIVE_TASKS] else []).
Proof.
  unfold pattern_analysis, repeats_tasks, distinct_recent_tasks, of_agent.
  cbn [Py.get assoc String.eqb Ascii.eqb Bool.eqb res_bind Py.len Py.last5].
  rewrite length_map.
  destruct (5 <? Z.of_nat (length (recent_calls a))); [| reflexivity].
  rewrite lastn_map, mapM_task. cbn [res_bind].
  rewrite set_of_strings. cbn [res_bind]. rewrite length_map.
  reflexivity.
Qed.

(** What the script suggests on a store: nothing for an agent the store
    does not know, else the outcome of the two checks in their order. *)
Lemma suggest_optimizations_of_store (s : MetricsStore) (name : string) :
  suggest_optimizations (to_py s) name
  = Ok (match assoc name (agents s) with
        | None => []
        | Some a =>
            (if many_simple_calls a then [COMBINE_SIMPLE_TASKS] else [])
            ++ (if repeats_tasks a then [REPETITIVE_TASKS] else [])
        end)%list.
Proof.
  unfold suggest_optimizations, to_py.
  cbn [Py.getitem Py.get assoc String.eqb Ascii.eqb Bool.eqb res_bind].
  rewrite assoc_of_entries.
  destruct (assoc name (agents s)) as [a |]; cbn [option_map res_bind].
  - rewrite high_frequency_of_agent. cbn [res_bind].
    rewrite pattern_analysis_of_agent. reflexivity.
  - reflexivity.
Qed.

End Encoding.

(* ===================================================================== *)
(** * The suggestions *)
(* ===================================================================== *)

Lemma suggestions_differ : COMBINE_SIMPLE_TASKS <> REPETITIVE_TASKS.
Proof. discriminate. Qed.

(** C6. For every store and every agent name, the suggestions contain
    "Consider combining simple tasks to reduce overhead" exactly when the
    store knows the agent with more than 10 calls and an average
    complexity below 2; in every other case that suggestion is absent. *)
Theorem combine_suggestion_iff (s : Store.MetricsStore) (name : string) :
  exists suggestions,
    suggest_optimizations (Store.to_py s) name = Ok suggestions
    /\ (In COMBINE_SIMPLE_TASKS suggestions
        <-> exists a, assoc name (Store.agents s) = Some a
                      /\ 10 < Store.total_calls a
                      /\ (Py.num_Q (Store.avg_complexity a) < 2)%Q).
Proof.
  rewrite suggest_optimizations_of_store. eexists. split; [reflexivity |].
  destruct (assoc name (Store.agents s)) as [a |].
  - assert (E : Store.many_simple_calls a = true
                <-> 10 < Store.total_calls a
                    /\ (Py.num_Q (Store.avg_complexity a) < 2)%Q).
    { unfold Store.many_simple_calls, Store.lt_2.
      rewrite andb_true_iff, Z.ltb_lt, Qltb_lt. reflexivity. }
    split.
    + intros HIn. exists a. split; [reflexivity |]. apply E.
      apply in_app_or in HIn as [HIn | HIn].
      * destruct (Store.many_simple_calls a); [reflexivity | destruct HIn].
      * destruct (Store.repeats_tasks a); [| destruct HIn].
        destruct HIn as [HIn | []].
        symmetry in HIn. now apply suggestions_differ in HIn.
    + intros [a' [[= <-] H]]. apply E in H. rewrite H.
      apply in_or_app. left. now left.
  - split; [intros [] | intros [a [[=] _]]].
Qed.

(** The two stores of the example: 11 calls of average 1.5 bring the
    suggestion, 10 calls of the same average do not. *)
Example combine_suggestion_at_eleven :
  suggest_optimizations (Store.to_py Scenario.eleven_simple) "agentX"
  = Ok [COMBINE_SIMPLE_TASKS]
  /\ suggest_optimizations (Store.to_py Scenario.ten_simple) "agentX"
     = Ok [].
Proof. split; vm_compute; reflexivity. Qed.

(** C3, as the script has it. When an agent of the store has more than 5
    recent calls and the last 5 of them, in insertion order, are for fewer
    than 3 distinct truncated task strings, the suggestions contain
    "Detected repetitive tasks - consider batch processing". *)
Theorem repetitive_suggestion (s : Store.MetricsStore) (name : string)
  (a : Store.AgentStats) :
  assoc name (Store.agents s) = Some a ->
  (5 < length (Store.recent_calls a))%nat ->
  Store.distinct_recent_tasks a < 3 ->
  exists suggestions,
    suggest_optimizations (Store.to_py s) name = Ok suggestions
    /\ In REPETITIVE_TASKS suggestions.
Proof.
  intros Ha Hlen Hdistinct.
  rewrite suggest_optimizations_of_store, Ha.
  eexists. split; [reflexivity |].
  assert (E : Store.repeats_tasks a = true).
  { unfold Store.repeats_tasks. apply andb_true_iff.
    split; apply Z.ltb_lt; lia. }
  rewrite E. apply in_or_app. right. now left.
Qed.

Lemma repetitive_suggestion_witness :
  exists suggestions,
    suggest_optimizations (Store.to_py Scenario.six_equal) "agentX"
    = Ok suggestions
    /\ In REPETITIVE_TASKS suggestions.
Proof.
  apply (repetitive_suggestion _ "agentX" Scenario.six_equal_agent).
  - reflexivity.
  - simpl. lia.
  - vm_compute. reflexivity.
Defined.

(** C3 as it was stated fails on an agent with exactly five recent calls,
    all for one task: fewer than 3 distinct tasks among the last five, and
    no suggestion. *)
Lemma five_equal_calls_no_suggestion :
  assoc "agentX" (Store.agents Scenario.five_equal)
  = Some Scenario.five_equal_agent
  /\ Store.distinct_recent_tasks Scenario.five_equal_agent < 3
  /\ suggest_optimizations (Store.to_py Scenario.five_equal) "agentX"
     = Ok [].
Proof. repeat split; vm_compute; reflexivity. Qed.

(** X27. With and without the guard on the number of calls, both
    directions: for an agent of the store the repetition is reported
    exactly when there are more than 5 recent calls and fewer than 3
    distinct tasks among the last five. *)
Lemma repetitive_suggestion_iff (s : Store.MetricsStore) (name : string)
  (a : Store.AgentStats) :
  assoc name (Store.agents s) = Some a ->
  exists suggestions,
    suggest_optimizations (Store.to_py s) name = Ok suggestions
    /\ (In REPETITIVE_TASKS suggestions
        <-> (5 < length (Store.recent_calls a))%nat
            /\ Store.distinct_recent_tasks a < 3).
Proof.
  intros Ha. rewrite suggest_optimizations_of_store, Ha.
  eexists. split; [reflexivity |].
  assert (E : Store.repeats_tasks a = true
              <-> (5 < length (Store.recent_calls a))%nat
                  /\ Store.distinct_recent_tasks a < 3).
  { unfold Store.repeats_tasks. rewrite andb_true_iff, !Z.ltb_lt. lia. }
  rewrite <- E. split.
  - intros HIn. apply in_app_or in HIn as [HIn | HIn].
    + destruct (Store.many_simple_calls a); [| destruct HIn].
      destruct HIn as [HIn | []]. now apply suggestions_differ in HIn.
    + destruct (Store.repeats_tasks a); [reflexivity | destruct HIn].
  - intros ->. apply in_or_app. right. now left.
Qed.

(* ===================================================================== *)
(** * Printing and reading time stamps *)
(* ===================================================================== *)

Section Timestamps.

Import Datetime.

Lemma append_assoc (a b c : string) : ((a ++ b) ++ c = a ++ (b ++ c))%string.
Proof. induction a as [| x a IH]; simpl; [reflexivity | now rewrite IH]. Qed.

Lemma append_nil_r (a : string) : (a ++ "" = a)%string.
Proof. induction a as [| x a IH]; simpl; [reflexivity | now rewrite IH]. Qed.

Lemma digit_of_digit_char (v : Z) :
  0 <= v <= 9 -> digit_of (digit_char v) = Some v.
Proof.
  intros H.
  assert (C : v = 0 \/ v = 1 \/ v = 2 \/ v = 3 \/ v = 4 \/ v = 5 \/ v = 6
              \/ v = 7 \/ v = 8 \/ v = 9) by lia.
  repeat (destruct C as [-> | C]; [reflexivity |]). subst. reflexivity.
Qed.

(** Reading back the [n] digits just printed. *)
Lemma take_num_pad (n : nat) (v acc : Z) (rest : string) :
  0 <= v < 10 ^ Z.of_nat n ->
  take_num n acc (pad n v ++ rest) = Some (acc * 10 ^ Z.of_nat n + v, rest).
Proof.
  revert v acc. induction n as [| n IH]; intros v acc Hv.
  - simpl in *. f_equal. f_equal. lia.
  - rewrite Nat2Z.inj_succ, Z.pow_succ_r in * by lia.
    cbn [pad take_num append].
    assert (Hp : 0 < 10 ^ Z.of_nat n) by (apply Z.pow_pos_nonneg; lia).
    assert (Hq : 0 <= v / 10 ^ Z.of_nat n <= 9).
    { split; [apply Z.div_pos; lia |].
      assert (v / 10 ^ Z.of_nat n < 10); [| lia].
      apply Z.div_lt_upper_bound; lia. }
    rewrite (digit_of_digit_char _ Hq).
    rewrite IH by (apply Z.mod_pos_bound; lia).
    f_equal. f_equal.
    pose proof (Z.div_mod v (10 ^ Z.of_nat n)). nia.
Qed.

Lemma valid_fields (d : datetime) :
  valid d = true ->
  1 <= year d <= 9999 /\ 1 <= month d <= 12 /\ 1 <= day d <= 31
  /\ 0 <= hour d <= 23 /\ 0 <= minute d <= 59 /\ 0 <= second d <= 59
  /\ 0 <= microsecond d <= 999999.
Proof.
  unfold valid, between. rewrite !andb_true_iff, !Z.leb_le.
  intros H.
  assert (days_in_month (year d) (month d) <= 31).
  { unfold days_in_month.
    destruct (month d =? 2); [destruct (is_leap (year d)); lia |].
    destruct ((month d =? 4) || (month d =? 6) || (month d =? 9)
              || (month d =? 11)); lia. }
  lia.
Qed.

Lemma take_num_pad_0 (n : nat) (v : Z) (rest : string) :
  0 <= v < 10 ^ Z.of_nat n ->
  take_num n 0 (pad n v ++ rest) = Some (v, rest).
Proof. intros H. now rewrite take_num_pad. Qed.

Ltac read_field :=
  rewrite take_num_pad_0 by (simpl; lia);
  cbn [append expect Ascii.eqb Bool.eqb].

(** [fromisoformat] reads back what [isoformat] prints. *)
Lemma fromisoformat_isoformat (d : datetime) :
  valid d = true -> fromisoformat (isoformat d) = Some d.
Proof.
  intros Hv. pose proof (valid_fields d Hv) as F.
  unfold fromisoformat, isoformat, strftime_ymd.
  rewrite !append_assoc.
  do 3 read_field. unfold parse_time. do 2 read_field.
  destruct d as [y m dd h mi sec us];
    cbn [year month day hour minute second microsecond] in *.
  destruct (us =? 0) eqn:Hus.
  - apply Z.eqb_eq in Hus. subst us.
    read_field. unfold checked. now rewrite Hv.
  - read_field. unfold parse_fraction.
    rewrite <- (append_nil_r (pad 6 us)). read_field.
    unfold checked. now rewrite Hv.
Qed.

End Timestamps.

(* ===================================================================== *)
(** * Loading and saving *)
(* ===================================================================== *)

Section LoadSave.

Lemma datetime_now_eq (w : World) :
  Sys.datetime_now w = (Ok (now w), Sys.tick w).
Proof. reflexivity. Qed.

Lemma disk_tick (w : World) : disk (Sys.tick w) = disk w.
Proof. unfold Sys.tick, Sys.datetime_now. simpl. now destruct (later w). Qed.

Lemma stderr_tick (w : World) : stderr (Sys.tick w) = stderr w.
Proof. unfold Sys.tick, Sys.datetime_now. simpl. now destruct (later w). Qed.

Lemma readable_tick (w : World) : readable (Sys.tick w) = readable w.
Proof. unfold Sys.tick, Sys.datetime_now. simpl. now destruct (later w). Qed.

Lemma writable_tick (w : World) : writable (Sys.tick w) = writable w.
Proof. unfold Sys.tick, Sys.datetime_now. simpl. now destruct (later w). Qed.

(** An unusable file makes [load_metrics] return the fresh store, stamped
    with the time of the call; nothing is printed. *)
Lemma load_metrics_unusable (w : World) :
  unusable w ->
  load_metrics w = (Ok (fresh_metrics (now w)), Sys.tick w).
Proof.
  destruct w as [d r wr n l e]. unfold unusable. simpl.
  intros H. destruct d as [| | v], r; try reflexivity.
  destruct H as [H | [H | H]]; discriminate.
Qed.

(** A readable JSON document is returned as it is. *)
Lemma load_metrics_document (w : World) (v : pyval) :
  readable w = true -> disk w = Document v ->
  load_metrics w = (Ok v, w).
Proof.
  destruct w as [d r wr n l e]. simpl. intros -> ->. reflexivity.
Qed.

Lemma load_metrics_never_raises (w : World) :
  exists v, fst (load_metrics w) = Ok v.
Proof.
  destruct (disk w) as [| | v] eqn:D.
  - eexists. rewrite load_metrics_unusable; [reflexivity | now left].
  - eexists. rewrite load_metrics_unusable; [reflexivity |].
    right. now right.
  - destruct (readable w) eqn:R.
    + exists v. now rewrite (load_metrics_document w v R D).
    + eexists. rewrite load_metrics_unusable; [reflexivity |].
      right. now left.
Qed.

Lemma save_metrics_never_raises (metrics : pyval) (w : World) :
  fst (save_metrics metrics w) = Ok tt.
Proof.
  destruct w as [d r wr n l e].
  unfold save_metrics, try_except, bind, Sys.makedirs_and_open_w,
    Sys.json_dump, Sys.print_err. cbn [writable].
  destruct wr; [| reflexivity].
  destruct (Py.serializable metrics); reflexivity.
Qed.

(** Where the location can be written, a serializable value reaches the
    file and nothing is printed. *)
Lemma save_metrics_writes (metrics : pyval) (w : World) :
  writable w = true -> Py.serializable metrics = true ->
  save_metrics metrics w = (Ok tt, Sys.set_disk (Document metrics) w).
Proof.
  destruct w as [d r wr n l e].
  unfold save_metrics, try_except, bind, Sys.makedirs_and_open_w,
    Sys.json_dump. cbn [writable].
  intros -> S. rewrite S. reflexivity.
Qed.

(** Where it cannot, the file stays as it is and the failure is printed. *)
Lemma save_metrics_fails (metrics : pyval) (w : World) :
  writable w = false ->
  disk (snd (save_metrics metrics w)) = disk w
  /\ stderr (snd (save_metrics metrics w))
     = (stderr w ++ [FailedToSaveMetrics OSError])%list.
Proof.
  destruct w as [d r wr n l e].
  unfold save_metrics, try_except, bind, Sys.makedirs_and_open_w,
    Sys.print_err. cbn [writable].
  intros ->. split; reflexivity.
Qed.

Lemma serializable_of_agent (a : Store.AgentStats) :
  Py.serializable (Store.of_agent a) = true.
Proof.
  unfold Store.of_agent. cbn [Py.serializable forallb snd].
  assert (H : forallb Py.serializable
                      (map Store.of_call (Store.recent_calls a)) = true)
    by (induction (Store.recent_calls a); simpl; auto).
  rewrite H. now destruct (Store.avg_complexity a).
Qed.

Lemma serializable_of_daily (d : Store.DailyStats) :
  Py.serializable (Store.of_daily d) = true.
Proof.
  unfold Store.of_daily. cbn [Py.serializable forallb snd].
  assert (H : forallb Py.serializable (map PStr (Store.agents_used d)) = true)
    by (induction (Store.agents_used d); simpl; auto).
  now rewrite H.
Qed.

Lemma serializable_of_entries {V : Type} (f : V -> pyval)
  (d : list (string * V)) :
  (forall v, Py.serializable (f v) = true) ->
  forallb (fun kv => Py.serializable (snd kv)) (Store.of_entries f d) = true.
Proof.
  intros H. induction d as [| [k v] d IH]; simpl; [reflexivity |].
  now rewrite H, IH.
Qed.

(** The Python value of a store holds no set: [json.dump] accepts it. *)
Lemma serializable_to_py (s : Store.MetricsStore) :
  Py.serializable (Store.to_py s) = true.
Proof.
  unfold Store.to_py. cbn [Py.serializable forallb snd].
  rewrite (serializable_of_entries _ _ serializable_of_agent).
  rewrite (serializable_of_entries _ _ serializable_of_daily).
  reflexivity.
Qed.

End LoadSave.

(* ===================================================================== *)
(** * One invocation, step by step, on the Python value of a store *)
(* ===================================================================== *)

Section Recording.

Import Store.

Lemma assoc_dict_set_same {V : Type} (k : string) (v : V)
  (d : list (string * V)) :
  assoc k (dict_set k v d) = Some v.
Proof.
  induction d as [| [k' v'] d IH]; simpl.
  - now rewrite String.eqb_refl.
  - destruct (String.eqb k k') eqn:E; simpl.
    + now rewrite String.eqb_refl.
    + now rewrite E.
Qed.

Lemma dict_set_twice {V : Type} (k : string) (v x : V)
  (d : list (string * V)) :
  dict_set k x (dict_set k v d) = dict_set k x d.
Proof.
  induction d as [| [k' v'] d IH]; simpl.
  - now rewrite String.eqb_refl.
  - destruct (String.eqb k k') eqn:E; simpl.
    + now rewrite String.eqb_refl.
    + now rewrite E, IH.
Qed.

(** Looking up a key after making sure it is there. *)
Lemma assoc_ensured {V : Type} (k : string) (v : V) (d : list (string * V)) :
  assoc k (if has_key k d then d else dict_set k v d)
  = Some (match assoc k d with Some a => a | None => v end).
Proof.
  unfold has_key. destruct (assoc k d) eqn:E; [exact E |].
  apply assoc_dict_set_same.
Qed.

Lemma dict_set_ensured {V : Type} (k : string) (v x : V)
  (d : list (string * V)) :
  dict_set k x (if has_key k d then d else dict_set k v d) = dict_set k x d.
Proof.
  destruct (has_key k d); [reflexivity | apply dict_set_twice].
Qed.

Lemma ensure_agent_entry (s : MetricsStore) (name : string) :
  ensure_entry "agents" name new_agent_stats (to_py s)
  = Ok (to_py (mkStore
                 (if has_key name (agents s) then agents s
                  else dict_set name zero_agent (agents s))
                 (daily_stats s) (last_cleanup s))).
Proof.
  destruct s as [ags days lc]. unfold ensure_entry, Py.at_key, to_py.
  cbn [Py.getitem Py.setitem Py.contains assoc dict_set String.eqb Ascii.eqb
       Bool.eqb res_bind agents daily_stats last_cleanup].
  rewrite has_key_of_entries.
  destruct (has_key name ags); [reflexivity |].
  change new_agent_stats with (of_agent zero_agent).
  now rewrite dict_set_of_entries.
Qed.

Lemma ensure_day_entry (s : MetricsStore) (today : string) :
  has_key today (daily_stats s) = true ->
  ensure_entry "daily_stats" today new_daily_stats (to_py s) = Ok (to_py s).
Proof.
  intros H. unfold ensure_entry, to_py.
  cbn [Py.getitem Py.contains assoc String.eqb Ascii.eqb Bool.eqb res_bind].
  now rewrite has_key_of_entries, H.
Qed.

Lemma getitem_agent (s : MetricsStore) (name : string) (a : AgentStats) :
  assoc name (agents s) = Some a ->
  (agents <- Py.getitem (to_py s) "agents" ;; Py.getitem agents name)%res
  = Ok (of_agent a).
Proof.
  intros H. unfold to_py.
  cbn [Py.getitem assoc String.eqb Ascii.eqb Bool.eqb res_bind].
  now rewrite assoc_of_entries, H.
Qed.

Lemma getitem_day (s : MetricsStore) (today : string) (d : DailyStats) :
  assoc today (daily_stats s) = Some d ->
  (days <- Py.getitem (to_py s) "daily_stats" ;; Py.getitem days today)%res
  = Ok (of_daily d).
Proof.
  intros H. unfold to_py.
  cbn [Py.getitem assoc String.eqb Ascii.eqb Bool.eqb res_bind].
  now rewrite assoc_of_entries, H.
Qed.

(** The filter keeps the calls of the window; no time stamp of a store
    fails to parse. *)
Lemma filterM_is_recent (cutoff : datetime) (l : list CallRecord) :
  forallb (fun c => Datetime.valid (timestamp c)) l = true ->
  Py.filterM (is_recent cutoff) (map of_call l)
  = Ok (map of_call (filter (within_window cutoff) l)).
Proof.
  induction l as [| c l IH]; [reflexivity |].
  cbn [forallb]. rewrite andb_true_iff. intros [Hc Hl].
  cbn [map Py.filterM filter]. rewrite (IH Hl).
  unfold is_recent at 1, of_call at 1.
  cbn [Py.getitem assoc String.eqb Ascii.eqb Bool.eqb res_bind
       Py.fromisoformat].
  rewrite (fromisoformat_isoformat _ Hc). cbn [res_bind].
  unfold within_window. now destruct (Datetime.gt (timestamp c) cutoff).
Qed.

Lemma sum_from_ints (zs : list Z) (a : Z) :
  Py.sum_from (Py.NInt a) (map PInt zs) = Ok (Py.NInt (fold_left Z.add zs a)).
Proof.
  revert a. induction zs as [| z zs IH]; intros a; [reflexivity |].
  cbn [map Py.sum_from Py.num_add res_bind fold_left]. apply IH.
Qed.

Lemma update_average_of_agent (n : Z) (kept : list CallRecord)
  (avg : Py.number) :
  update_average (of_agent (mkAgent n kept avg))
  = Ok (of_agent (mkAgent n kept
                    (match kept with
                     | [] => avg
                     | _ => mean_complexity kept
                     end))).
Proof.
  unfold update_average, of_agent.
  cbn [Py.getitem assoc String.eqb Ascii.eqb Bool.eqb res_bind
       total_calls recent_calls avg_complexity].
  destruct kept as [| c kept]; [reflexivity |].
  cbn [map Py.truthy Py.iter res_bind].
  change (of_call c :: map of_call kept) with (map of_call (c :: kept)).
  rewrite mapM_complexity. cbn [res_bind].
  unfold Py.sum. rewrite sum_from_ints. cbn [res_bind].
  rewrite !length_map. reflexivity.
Qed.

Lemma record_day_steps (name : string) (d : DailyStats) :
  (daily <- increment "total_calls" (of_daily d) ;;
   used <- Py.get daily "agents_used" (PList []) ;;
   used <- Py.add_list used [PStr name] ;;
   used <- Py.iter used ;;
   used <- Py.set_of used ;;
   Py.setitem daily "agents_used" (PList used))%res
  = Ok (of_daily (record_day name d)).
Proof.
  unfold increment, of_daily, record_day.
  cbn [Py.getitem Py.get Py.setitem Py.add_int Py.add_list Py.iter assoc
       dict_set String.eqb Ascii.eqb Bool.eqb res_bind].
  change [PStr name] with (map PStr [name]). rewrite <- map_app.
  rewrite set_of_strings. reflexivity.
Qed.

(** A fresh day holds a set where a list is expected: adding the one-agent
    list to it raises. *)
Lemma new_day_steps (name : string) :
  (daily <- increment "total_calls" new_daily_stats ;;
   used <- Py.get daily "agents_used" (PList []) ;;
   Py.add_list used [PStr name])%res
  = Raise TypeError.
Proof. reflexivity. Qed.

Lemma write_back_agent (s : MetricsStore) (name : string) (a : AgentStats) :
  Py.at_key "agents" (fun agents => Py.setitem agents name (of_agent a))
            (to_py s)
  = Ok (to_py (mkStore (dict_set name a (agents s)) (daily_stats s)
                       (last_cleanup s))).
Proof.
  unfold Py.at_key, to_py.
  cbn [Py.getitem Py.setitem assoc dict_set String.eqb Ascii.eqb Bool.eqb
       res_bind agents daily_stats last_cleanup].
  now rewrite dict_set_of_entries.
Qed.

Lemma write_back_day (s : MetricsStore) (today : string) (d : DailyStats) :
  Py.at_key "daily_stats" (fun days => Py.setitem days today (of_daily d))
            (to_py s)
  = Ok (to_py (mkStore (agents s) (dict_set today d (daily_stats s))
                       (last_cleanup s))).
Proof.
  unfold Py.at_key, to_py.
  cbn [Py.getitem Py.setitem assoc dict_set String.eqb Ascii.eqb Bool.eqb
       res_bind agents daily_stats last_cleanup].
  now rewrite dict_set_of_entries.
Qed.

Lemma valid_timestamps_agent (s : MetricsStore) (name : string)
  (a : AgentStats) :
  valid_timestamps s = true -> assoc name (agents s) = Some a ->
  forallb (fun c => Datetime.valid (timestamp c)) (recent_calls a) = true.
Proof.
  unfold valid_timestamps. rewrite forallb_forall.
  intros H Ha. apply assoc_In in Ha. exact (H _ Ha).
Qed.

End Recording.

(* ===================================================================== *)
(** * One invocation on a persisted store *)
(* ===================================================================== *)

Section Invocation.

Import Store.

Lemma bind_Ok {A B : Type} (c : M A) (k : A -> M B) (w w' : World) (a : A) :
  c w = (Ok a, w') -> bind c k w = k a w'.
Proof. unfold bind. now intros ->. Qed.

Lemma bind_lift {A B : Type} (r : res A) (k : A -> M B) (w : World) :
  bind (lift r) k w
  = match r with Ok a => k a w | Raise e => (Raise e, w) end.
Proof. reflexivity. Qed.

Lemma bind_now {B : Type} (k : datetime -> M B) (w : World) :
  bind Sys.datetime_now k w = k (now w) (Sys.tick w).
Proof. reflexivity. Qed.

Lemma getitem_section_agents (s : MetricsStore) :
  Py.getitem (to_py s) "agents" = Ok (PDict (of_entries of_agent (agents s))).
Proof. reflexivity. Qed.

Lemma getitem_section_days (s : MetricsStore) :
  Py.getitem (to_py s) "daily_stats"
  = Ok (PDict (of_entries of_daily (daily_stats s))).
Proof. reflexivity. Qed.

Lemma getitem_entry {V : Type} (f : V -> pyval) (d : list (string * V))
  (k : string) (v : V) :
  assoc k d = Some v -> Py.getitem (PDict (of_entries f d)) k = Ok (f v).
Proof. intros H. unfold Py.getitem. now rewrite assoc_of_entries, H. Qed.

Ltac pure_step lemma :=
  rewrite bind_lift; rewrite lemma; cbv beta iota zeta.

Ltac clock_step := rewrite bind_now; cbv beta iota zeta.

(** A pure step on a dictionary whose keys are known: it computes. *)
Ltac dict_step :=
  rewrite bind_lift;
  cbn [Py.getitem Py.setitem Py.get Py.add_int Py.add_list Py.iter
       Py.append_method assoc dict_set String.eqb Ascii.eqb Bool.eqb
       res_bind];
  cbv beta iota zeta.

(** Lines 56 to 69 of the script, from the statistics of the agent to the
    calls that are kept: the counter, the new call, the window. *)
Ltac agent_steps s agent_name task_description w1 V Hcall Hcut :=
  let a := fresh "a" in
  let Va := fresh "Va" in
  set (a := match assoc agent_name (agents s) with
            | Some a => a
            | None => zero_agent
            end);
  assert (Va : forallb (fun c => Datetime.valid (timestamp c))
                       (recent_calls a) = true)
    by (subst a;
        destruct (assoc agent_name (agents s)) eqn:?;
        [eapply valid_timestamps_agent; eassumption | reflexivity]);
  destruct a as [n calls avg]; cbn [recent_calls] in Va;
  unfold increment, of_agent;
  cbn [total_calls recent_calls avg_complexity];
  do 3 dict_step; clock_step; dict_step; clock_step;
  rewrite bind_lift; unfold minus_24h; rewrite Hcut; cbv beta iota zeta;
  do 2 dict_step;
  change (call_record (now (Sys.tick w1)) task_description)
    with (of_call (new_call (now (Sys.tick w1)) task_description));
  change [of_call (new_call (now (Sys.tick w1)) task_description)]
    with (map of_call [new_call (now (Sys.tick w1)) task_description]);
  rewrite <- map_app;
  rewrite bind_lift, filterM_is_recent
    by (rewrite forallb_app, Va; cbn [forallb new_call timestamp];
        now rewrite Hcall);
  cbv beta iota zeta;
  dict_step.

(** When the store that [load_metrics] returns has an entry for today, the
    script computes what [Store.record] describes, and then saves it. [w1]
    is the world after loading. *)
Lemma record_agent_invocation_on_store
  (agent_name task_description : string) (s s' : MetricsStore)
  (cutoff : datetime) (w w1 : World) :
  load_metrics w = (Ok (to_py s), w1) ->
  valid_timestamps s = true ->
  Datetime.valid (Sys.reading 1 w1) = true ->
  Datetime.minus_24h (Sys.reading 2 w1) = Some cutoff ->
  Store.record agent_name task_description
    (Datetime.strftime_ymd (Sys.reading 0 w1)) (Sys.reading 1 w1) cutoff s
  = Some s' ->
  record_agent_invocation agent_name task_description w
  = (Ok (to_py s'),
     snd (save_metrics (to_py s') (Sys.tick (Sys.tick (Sys.tick w1))))).
Proof.
  intros L V Hcall Hcut Hrec. cbn [Sys.reading] in *.
  unfold Store.record in Hrec.
  destruct (assoc (Datetime.strftime_ymd (now w1)) (daily_stats s))
    as [d |] eqn:Hd; [| discriminate].
  injection Hrec as <-.
  unfold record_agent_invocation.
  rewrite (bind_Ok _ _ _ _ _ L).
  cbv beta. clock_step.
  (* the two entries *)
  pure_step ensure_agent_entry.
  rewrite bind_lift, ensure_day_entry
    by (cbn [daily_stats]; unfold has_key; now rewrite Hd).
  cbv beta iota zeta.
  (* the agent *)
  pure_step getitem_section_agents.
  cbn [agents daily_stats last_cleanup].
  pure_step (getitem_entry of_agent _ _ _
               (assoc_ensured agent_name zero_agent (agents s))).
  agent_steps s agent_name task_description w1 V Hcall Hcut.
  set (kept := filter (within_window cutoff)
                 (calls ++ [new_call (now (Sys.tick w1)) task_description])).
  (* the day *)
  pure_step getitem_section_days.
  cbn [agents daily_stats last_cleanup].
  pure_step (getitem_entry of_daily _ _ _ Hd).
  unfold of_daily. do 4 dict_step.
  change [PStr agent_name] with (map PStr [agent_name]).
  rewrite <- map_app.
  pure_step set_of_strings. dict_step.
  (* the average, and the two objects seen from the store *)
  change (PDict
            [("total_calls", PInt (n + 1));
             ("recent_calls", PList (map of_call kept));
             ("avg_complexity", of_number avg)])
    with (of_agent (mkAgent (n + 1) kept avg)).
  pure_step update_average_of_agent.
  pure_step write_back_agent.
  cbn [agents daily_stats last_cleanup]. rewrite dict_set_ensured.
  change (PDict
            [("total_calls", PInt (day_total_calls d + 1));
             ("agents_used",
              PList (map PStr (nodup string_dec
                                 (agents_used d ++ [agent_name]))));
             ("parallel_sessions", PInt (parallel_sessions d))])
    with (of_daily (record_day agent_name d)).
  pure_step write_back_day.
  cbn [agents daily_stats last_cleanup].
  unfold record_agent. cbn [total_calls recent_calls avg_complexity].
  fold kept.
  (* saving never raises *)
  match goal with
  | |- bind (save_metrics ?m) _ ?w3 = _ =>
      pose proof (save_metrics_never_raises m w3) as Hs;
      unfold bind, ret; destruct (save_metrics m w3) as [r w4];
      cbn [fst snd] in *; subst r; reflexivity
  end.
Qed.

Lemma ensure_day_missing (s : MetricsStore) (today : string) :
  assoc today (daily_stats s) = None ->
  ensure_entry "daily_stats" today new_daily_stats (to_py s)
  = Ok (PDict
          [ ("agents", PDict (of_entries of_agent (agents s)));
            ("daily_stats",
             PDict (dict_set today new_daily_stats
                      (of_entries of_daily (daily_stats s))));
            ("last_cleanup", PStr (Datetime.isoformat (last_cleanup s))) ]).
Proof.
  intros H. unfold ensure_entry, Py.at_key, to_py.
  cbn [Py.getitem Py.setitem Py.contains assoc dict_set String.eqb Ascii.eqb
       Bool.eqb res_bind].
  rewrite has_key_of_entries. unfold has_key. now rewrite H.
Qed.

(** When the store that [load_metrics] returns has no entry for today, the
    script creates one that holds a set, and raises [TypeError] when it adds
    the agent to it: nothing is saved and nothing is returned. *)
Lemma record_agent_invocation_new_day
  (agent_name task_description : string) (s : MetricsStore)
  (cutoff : datetime) (w w1 : World) :
  load_metrics w = (Ok (to_py s), w1) ->
  valid_timestamps s = true ->
  Datetime.valid (Sys.reading 1 w1) = true ->
  Datetime.minus_24h (Sys.reading 2 w1) = Some cutoff ->
  assoc (Datetime.strftime_ymd (Sys.reading 0 w1)) (daily_stats s) = None ->
  record_agent_invocation agent_name task_description w
  = (Raise TypeError, Sys.tick (Sys.tick (Sys.tick w1))).
Proof.
  intros L V Hcall Hcut Hd. cbn [Sys.reading] in *.
  unfold record_agent_invocation.
  rewrite (bind_Ok _ _ _ _ _ L).
  cbv beta. clock_step.
  (* the two entries: the day is created *)
  pure_step ensure_agent_entry.
  rewrite bind_lift, ensure_day_missing by exact Hd.
  cbv beta iota zeta. cbn [agents daily_stats last_cleanup].
  (* the agent *)
  dict_step.
  rewrite bind_lift, assoc_of_entries, assoc_ensured.
  cbn [option_map]. cbv beta iota zeta.
  agent_steps s agent_name task_description w1 V Hcall Hcut.
  (* the day: a set meets a list *)
  rewrite bind_lift. cbv beta iota zeta.
  rewrite bind_lift. unfold Py.getitem at 1. rewrite assoc_dict_set_same.
  cbv beta iota zeta.
  unfold new_daily_stats. do 3 dict_step.
  reflexivity.
Qed.

End Invocation.

(* ===================================================================== *)
(** * The first invocation of a day *)
(* ===================================================================== *)

(** C1. The claim is that one call of [record_agent_invocation "agentX"
    "implement feature"] on a store without agents and without daily
    statistics returns a store in which [agentX] has [total_calls] 1 and
    [avg_complexity] 3. The script does not get that far: the day it has
    just created holds [set()], [set() + [agent_name]] raises [TypeError],
    and the call returns nothing and saves nothing. *)
Theorem first_invocation_on_empty_store_raises :
  record_agent_invocation "agentX" "implement feature" Scenario.first_run
  = (Raise TypeError, Scenario.first_run).
Proof. vm_compute. reflexivity. Qed.

(** Where the day is already there, with a list of agents, the same call
    gives what C1 expects. *)
Example first_invocation_on_prepared_day :
  exists metrics w',
    record_agent_invocation "agentX" "implement feature"
      (Scenario.world_at (Document (Store.to_py Scenario.both_days))
                         Scenario.t1)
    = (Ok metrics, w')
    /\ (agents <- Py.getitem metrics "agents" ;;
        agent_stats <- Py.getitem agents "agentX" ;;
        Py.getitem agent_stats "total_calls")%res = Ok (PInt 1)
    /\ (agents <- Py.getitem metrics "agents" ;;
        agent_stats <- Py.getitem agents "agentX" ;;
        Py.getitem agent_stats "avg_complexity")%res = Ok (PFloat 3)
    /\ disk w' = Document metrics.
Proof. do 2 eexists. vm_compute. repeat split; reflexivity. Qed.

(** C5. The claim is that two calls for one agent, 25 hours apart, leave
    only the second call among the recent calls while [total_calls] is 2.
    Starting without a metrics file, both calls raise [TypeError] at the
    set of the new day, and no file is ever written. *)
Theorem two_invocations_from_empty_store_raise :
  fst (record_agent_invocation "agentX" "implement feature"
         Scenario.first_run) = Raise TypeError
  /\ fst (record_agent_invocation "agentX" "implement feature"
            (Scenario.a_day_later
               (snd (record_agent_invocation "agentX" "implement feature"
                       Scenario.first_run)))) = Raise TypeError
  /\ disk (snd (record_agent_invocation "agentX" "implement feature"
                  (Scenario.a_day_later
                     (snd (record_agent_invocation "agentX"
                             "implement feature" Scenario.first_run)))))
     = NoFile.
Proof. vm_compute. repeat split; reflexivity. Qed.

(** Where both days are already there, the two calls do what C5 expects:
    the first call is pruned, the counter is 2. *)
Example two_invocations_on_prepared_days :
  exists metrics w',
    record_agent_invocation "agentX" "review the parser"
      (Scenario.a_day_later
         (snd (record_agent_invocation "agentX" "implement feature"
                 (Scenario.world_at
                    (Document (Store.to_py Scenario.both_days))
                    Scenario.t1))))
    = (Ok metrics, w')
    /\ (agents <- Py.getitem metrics "agents" ;;
        agent_stats <- Py.getitem agents "agentX" ;;
        Py.getitem agent_stats "total_calls")%res = Ok (PInt 2)
    /\ (agents <- Py.getitem metrics "agents" ;;
        agent_stats <- Py.getitem agents "agentX" ;;
        Py.getitem agent_stats "recent_calls")%res
       = Ok (PList [call_record Scenario.t2 "review the parser"]).
Proof. do 2 eexists. vm_compute. repeat split; reflexivity. Qed.

(** The failure does not depend on the agent, the task or the date: with
    an unusable file every invocation ends at the set of the new day. *)
Lemma invocation_without_file_raises
  (agent_name task_description : string) (cutoff : datetime) (w : World) :
  unusable w ->
  Datetime.valid (Sys.reading 2 w) = true ->
  Datetime.minus_24h (Sys.reading 3 w) = Some cutoff ->
  record_agent_invocation agent_name task_description w
  = (Raise TypeError, Sys.tick (Sys.tick (Sys.tick (Sys.tick w)))).
Proof.
  intros U Hcall Hcut.
  apply (record_agent_invocation_new_day agent_name task_description
           (Store.empty (now w)) cutoff w (Sys.tick w)).
  - exact (load_metrics_unusable w U).
  - reflexivity.
  - exact Hcall.
  - exact Hcut.
  - reflexivity.
Qed.

(** What the window does to the statistics of an agent: when the new call
    is inside it and every older call outside, only the new call remains,
    and the counter has grown by one all the same. *)
Lemma record_agent_prunes (t_call cutoff : datetime)
  (task_description : string) (a : Store.AgentStats) :
  (forall c, In c (Store.recent_calls a) ->
             Store.within_window cutoff c = false) ->
  Datetime.gt t_call cutoff = true ->
  Store.recent_calls (Store.record_agent t_call cutoff task_description a)
  = [Store.new_call t_call task_description]
  /\ Store.total_calls (Store.record_agent t_call cutoff task_description a)
     = Store.total_calls a + 1.
Proof.
  intros Hold Hnew. unfold Store.record_agent.
  cbn [Store.recent_calls Store.total_calls]. split; [| reflexivity].
  rewrite filter_app. cbn [filter].
  unfold Store.within_window at 2. cbn [Store.new_call Store.timestamp].
  rewrite Hnew.
  assert (E : filter (Store.within_window cutoff) (Store.recent_calls a) = []).
  { induction (Store.recent_calls a) as [| c l IH]; [reflexivity |].
    cbn [filter]. rewrite (Hold c (or_introl eq_refl)).
    apply IH. intros c' Hc'. apply Hold. now right. }
  now rewrite E.
Qed.

(* ===================================================================== *)
(** * Exceptions *)
(* ===================================================================== *)




(* ===================================================================== *)
(** * The process *)
(* ===================================================================== *)

(** Whatever the event and the world, the status is 0. *)
Lemma main_exit_status (stdin : option pyval) (w : World)
  (status : Z) (w' : World) :
  main stdin w = Some (status, w') -> status = 0.
Proof.
  unfold main. destruct (main_try stdin) as [body |]; [| discriminate].
  destruct (body w) as [[[] | e] w1]; cbn; now intros [= <- _].
Qed.

(** C7. The claim is that on a metrics file that is missing, cannot be
    read or holds no JSON, loading falls back to the fresh store, the
    processing goes on, and the process ends with status 0. The fallback
    and the status are as claimed, but the processing does not go on: in
    each of the three cases the invocation creates the day with [set()],
    raises [TypeError] when it adds the agent to it, and the script prints
    the announcement and the error and records nothing; the file is as it
    was. *)
Theorem unusable_file_stops_the_run :
  load_metrics Scenario.first_run
  = (Ok (fresh_metrics Scenario.t1), Scenario.first_run)
  /\ main (Some (Scenario.task_event "agentX" "implement feature"))
          (mkWorld NoFile true true Scenario.t1 [] [])
     = Some (0, mkWorld NoFile true true Scenario.t1 []
                  [Recording "agentX"; MonitoringError TypeError])
  /\ main (Some (Scenario.task_event "agentX" "implement feature"))
          (mkWorld (Document (Store.to_py Scenario.both_days)) false true
                   Scenario.t1 [] [])
     = Some (0, mkWorld (Document (Store.to_py Scenario.both_days)) false
                  true Scenario.t1 []
                  [Recording "agentX"; MonitoringError TypeError])
  /\ main (Some (Scenario.task_event "agentX" "implement feature"))
          (mkWorld Unparseable true true Scenario.t1 [] [])
     = Some (0, mkWorld Unparseable true true Scenario.t1 []
                  [Recording "agentX"; MonitoringError TypeError]).
Proof. repeat split; vm_compute; reflexivity. Qed.

(** With no metrics file the event of a task is reported and then fails at
    the new day; the handler prints the error and the status is 0. *)
Example main_on_first_run :
  main (Some (Scenario.task_event "agentX" "implement feature"))
       Scenario.first_run
  = Some (0, mkWorld NoFile true true Scenario.t1 []
               [Recording "agentX"; MonitoringError TypeError]).
Proof. vm_compute. reflexivity. Qed.

(** Input that is no JSON is reported, and the status is 0. *)
Example main_on_garbage :
  main None Scenario.first_run
  = Some (0, mkWorld NoFile true true Scenario.t1 []
               [MonitoringError JSONDecodeError]).
Proof. vm_compute. reflexivity. Qed.

(* ===================================================================== *)
(** * Saving and loading again *)
(* ===================================================================== *)

(** C8. Where the file can be written and read, and nobody else writes in
    between, saving a store and loading it again gives the Python value of
    the store back, equal in every field. *)
Theorem save_then_load_round_trip (s : Store.MetricsStore) (w : World) :
  writable w = true -> readable w = true ->
  fst (save_metrics (Store.to_py s) w) = Ok tt
  /\ load_metrics (snd (save_metrics (Store.to_py s) w))
     = (Ok (Store.to_py s), snd (save_metrics (Store.to_py s) w)).
Proof.
  intros W R.
  rewrite (save_metrics_writes _ w W (serializable_to_py s)).
  split; [reflexivity |].
  apply load_metrics_document; [exact R | reflexivity].
Qed.

Lemma save_then_load_round_trip_witness :
  load_metrics
    (snd (save_metrics (Store.to_py Scenario.eleven_simple)
            Scenario.first_run))
  = (Ok (Store.to_py Scenario.eleven_simple),
     snd (save_metrics (Store.to_py Scenario.eleven_simple)
            Scenario.first_run)).
Proof.
  apply (proj2 (save_then_load_round_trip Scenario.eleven_simple
                  Scenario.first_run eq_refl eq_refl)).
Defined.

(** A value that holds a set is not written: the file is left without a
    JSON document, and loading gives the fresh store. *)
Example set_is_not_saved :
  let w := snd (save_metrics new_daily_stats Scenario.first_run) in
  disk w = Unparseable
  /\ stderr w = [FailedToSaveMetrics TypeError]
  /\ fst (load_metrics w) = Ok (fresh_metrics Scenario.t1).
Proof. vm_compute. repeat split; reflexivity. Qed.

(* ===================================================================== *)
(** * More on [estimate_task_complexity] *)
(* ===================================================================== *)

Section MoreComplexity.

Import PyStr.

(** A fact of code points below 256 only; nothing below rests on it. *)
Lemma length_lower (s : string) : String.length (lower s) = String.length s.
Proof. induction s as [| c s IH]; simpl; congruence. Qed.

Lemma lower_app (s t : string) :
  lower (s ++ t) = (lower s ++ lower t)%string.
Proof. induction s as [| c s IH]; simpl; [reflexivity | now rewrite IH]. Qed.

Lemma length_app (s t : string) :
  String.length (s ++ t) = (String.length s + String.length t)%nat.
Proof. induction s as [| c s IH]; simpl; [reflexivity | now rewrite IH]. Qed.

Lemma split_starts_word (s : string) :
  starts_word s = true -> split s <> [].
Proof.
  destruct s as [| c s]; simpl; [discriminate |].
  intros H. apply negb_true_iff in H. rewrite H.
  destruct (starts_word s); [destruct (split s) |]; discriminate.
Qed.

(** The words of two texts set side by side with a space in between are
    the words of the first followed by the words of the second. *)
Lemma split_app_space (s t : string) :
  split (s ++ String " " t) = (split s ++ split t)%list.
Proof.
  induction s as [| c s IH]; [reflexivity |].
  cbn [append split]. rewrite IH.
  destruct (is_space c); [reflexivity |].
  destruct s as [| d s]; [reflexivity |].
  cbn [append starts_word].
  destruct (negb (is_space d)) eqn:E; [| reflexivity].
  pose proof (split_starts_word (String d s) E) as Hne.
  destruct (split (String d s)); [contradiction | reflexivity].
Qed.

Lemma loop_is_four (words : list string) (b : Z) :
  b <= 4 ->
  fold_left raise_to_keyword words b = 4 ->
  b = 4 \/ exists word, In word words
                        /\ assoc word complexity_keywords = Some 4.
Proof.
  revert b. induction words as [| w ws IH]; intros b Hb H; simpl in H.
  - now left.
  - pose proof (raise_to_keyword_bounds b w) as Hr.
    destruct (IH (raise_to_keyword b w) ltac:(lia) H) as [E | [x [HIn Hx]]].
    + unfold raise_to_keyword in E.
      destruct (assoc w complexity_keywords) as [k |] eqn:Hk; [| now left].
      destruct (Z.eq_dec b 4) as [-> | Hne]; [now left |].
      right. exists w. split; [now left |].
      rewrite Hk. f_equal. lia.
    + right. exists x. split; [now right | exact Hx].
Qed.

End MoreComplexity.

(** X1. The estimate does not look at the case of the letters: two texts
    of the same length with the same lower-case form are estimated alike. *)
Theorem estimate_ignores_case (s t : string) :
  PyStr.lower s = PyStr.lower t ->
  String.length s = String.length t ->
  estimate_task_complexity s = estimate_task_complexity t.
Proof.
  intros H L. unfold estimate_task_complexity, PyStr.len.
  now rewrite H, L.
Qed.

Lemma estimate_ignores_case_witness :
  estimate_task_complexity "Build the API"
  = estimate_task_complexity "BUILD THE api".
Proof. apply estimate_ignores_case; reflexivity. Defined.

(** X2. A text none of whose tokens is a keyword is estimated at 1 when it
    has at most 200 characters and at 2 when it has more: a keyword that is
    only part of a token ("prefix", "fix,") does not count. *)
Theorem estimate_without_keywords (text : string) :
  (forall word, In word (map PyStr.lower (PyStr.split text)) ->
                assoc word complexity_keywords = None) ->
  estimate_task_complexity text
  = if 200 <? PyStr.len text then 2 else 1.
Proof.
  intros Hnone. unfold estimate_task_complexity.
  rewrite split_lower, (loop_without_keywords _ 1 Hnone).
  destruct (200 <? PyStr.len text); reflexivity.
Qed.

Lemma estimate_without_keywords_witness :
  estimate_task_complexity "add a prefix, then fix, it" = 1.
Proof.
  apply (estimate_without_keywords "add a prefix, then fix, it").
  vm_compute.
  intros word H.
  repeat (destruct H as [<- | H]; [reflexivity |]). destruct H.
Defined.

(** X3. The estimate is 5 exactly when the text has more than 200
    characters and one of its tokens is a keyword of weight 4: no text of
    200 characters or less reaches 5. *)
Theorem estimate_five_iff (text : string) :
  estimate_task_complexity text = 5
  <-> 200 < PyStr.len text
      /\ exists word, In word (map PyStr.lower (PyStr.split text))
                      /\ assoc word complexity_keywords = Some 4.
Proof.
  unfold estimate_task_complexity. rewrite split_lower.
  set (words := map PyStr.lower (PyStr.split text)).
  pose proof (loop_bounds words 1) as Hb.
  destruct (200 <? PyStr.len text) eqn:L.
  - apply Z.ltb_lt in L. split.
    + intros H. split; [exact L |].
      destruct (loop_is_four words 1 ltac:(lia) ltac:(lia))
        as [E | E]; [discriminate | exact E].
    + intros [_ [word [HIn Hw]]].
      pose proof (loop_reaches_weight words word 4 1 HIn Hw). lia.
  - apply Z.ltb_ge in L. split; [lia | intros [H _]; lia].
Qed.

(** X4. Words added after a space never lower the estimate. *)
Theorem estimate_grows_with_text (s t : string) :
  estimate_task_complexity s
  <= estimate_task_complexity (s ++ String " " t).
Proof.
  unfold estimate_task_complexity, PyStr.len.
  rewrite lower_app. cbn [PyStr.lower].
  change (PyStr.lower_char " ") with " "%char.
  rewrite split_app_space, fold_left_app, length_app.
  cbn [String.length].
  pose proof (loop_bounds (PyStr.split (PyStr.lower t))
                (fold_left raise_to_keyword
                           (PyStr.split (PyStr.lower s)) 1)) as Hb.
  destruct (200 <? Z.of_nat (String.length s)) eqn:L1;
    destruct (200 <? Z.of_nat (String.length s + S (String.length t)))
      eqn:L2;
    try apply Z.ltb_lt in L1; try apply Z.ltb_ge in L1;
    try apply Z.ltb_lt in L2; try apply Z.ltb_ge in L2; lia.
Qed.

(* ===================================================================== *)
(** * More on loading and saving *)
(* ===================================================================== *)

Section MoreLoadSave.

Lemma permissions_after_save (metrics : pyval) (w : World) :
  readable (snd (save_metrics metrics w)) = readable w
  /\ writable (snd (save_metrics metrics w)) = writable w.
Proof.
  destruct w as [d r wr n l e].
  unfold save_metrics, try_except, bind, Sys.makedirs_and_open_w,
    Sys.json_dump, Sys.print_err. cbn [writable].
  destruct wr; [| split; reflexivity].
  destruct (Py.serializable metrics); split; reflexivity.
Qed.

Lemma quiet_ret {A : Type} (a : A) : Run.quiet (ret a).
Proof. intros w. split; reflexivity. Qed.

Lemma quiet_lift {A : Type} (r : res A) : Run.quiet (lift r).
Proof. intros w. split; reflexivity. Qed.

Lemma quiet_now : Run.quiet Sys.datetime_now.
Proof.
  intros w. change (snd (Sys.datetime_now w)) with (Sys.tick w).
  split; [apply disk_tick | apply stderr_tick].
Qed.

Lemma quiet_load : Run.quiet load_metrics.
Proof.
  intros w.
  assert (C : unusable w
              \/ exists v, readable w = true /\ disk w = Document v).
  { unfold unusable. destruct (disk w) as [| | v]; auto.
    destruct (readable w); eauto. }
  destruct C as [U | [v [R D]]].
  - rewrite (load_metrics_unusable w U). cbn [snd].
    split; [apply disk_tick | apply stderr_tick].
  - rewrite (load_metrics_document w v R D). split; reflexivity.
Qed.

Lemma fails_quietly_bind {A B : Type} (c : M A) (k : A -> M B) :
  Run.quiet c -> (forall a, Run.fails_quietly (k a)) ->
  Run.fails_quietly (bind c k).
Proof.
  intros Hc Hk w e w'. unfold bind.
  destruct (Hc w) as [Hd He].
  destruct (c w) as [[a | e1] w1]; cbn [snd] in *.
  - intros H. destruct (Hk a w1 e w' H) as [Hd' He']. split; congruence.
  - intros [= <- <-]. split; assumption.
Qed.

Lemma fails_quietly_save_ret (metrics : pyval) :
  Run.fails_quietly (bind (save_metrics metrics) (fun _ => ret metrics)).
Proof.
  intros w e w'. unfold bind, ret.
  pose proof (save_metrics_never_raises metrics w) as H.
  destruct (save_metrics metrics w) as [r w1]. cbn [fst] in H. subst r.
  discriminate.
Qed.

End MoreLoadSave.

(** X5. The last save wins: whatever was saved before, and whether or not
    that save succeeded, a value without sets that is saved to a readable
    and writable location is what the next load returns. *)
Theorem last_save_wins (earlier metrics : pyval) (w : World) :
  writable w = true -> readable w = true ->
  Py.serializable metrics = true ->
  fst (load_metrics
         (snd (save_metrics metrics (snd (save_metrics earlier w)))))
  = Ok metrics.
Proof.
  intros W R S.
  destruct (permissions_after_save earlier w) as [R1 W1].
  rewrite save_metrics_writes by (congruence || exact S).
  rewrite (load_metrics_document _ metrics); [reflexivity | | reflexivity].
  cbn. congruence.
Qed.

Lemma last_save_wins_witness :
  fst (load_metrics
         (snd (save_metrics (Store.to_py Scenario.ten_simple)
                 (snd (save_metrics new_daily_stats Scenario.first_run)))))
  = Ok (Store.to_py Scenario.ten_simple).
Proof.
  apply last_save_wins; reflexivity.
Defined.

(** X6. Where the location cannot be written, [save_metrics] returns
    normally, leaves the file as it is and prints one line that names the
    error. *)
Theorem save_without_permission (metrics : pyval) (w : World) :
  writable w = false ->
  fst (save_metrics metrics w) = Ok tt
  /\ disk (snd (save_metrics metrics w)) = disk w
  /\ stderr (snd (save_metrics metrics w))
     = (stderr w ++ [FailedToSaveMetrics OSError])%list.
Proof.
  intros W. split; [apply save_metrics_never_raises |].
  now apply save_metrics_fails.
Qed.

Lemma save_without_permission_witness :
  disk (snd (save_metrics (Store.to_py Scenario.ten_simple)
               (mkWorld Unparseable true false Scenario.t1 [] [])))
  = Unparseable.
Proof.
  apply (save_without_permission (Store.to_py Scenario.ten_simple)
           (mkWorld Unparseable true false Scenario.t1 [] []) eq_refl).
Defined.

(** X7. [load_metrics] is silent: whatever the state of the file, it
    writes nothing to it and prints nothing, also when it falls back to the
    fresh store. *)
Theorem load_metrics_is_silent (w : World) :
  disk (snd (load_metrics w)) = disk w
  /\ stderr (snd (load_metrics w)) = stderr w.
Proof. apply quiet_load. Qed.

(** X8. A value that holds a set costs the file: where the location can
    be written, the file has been opened for writing before [json.dump]
    fails, so that the earlier document is gone, the error is printed, and
    the next load starts from the fresh store. *)
Theorem failed_dump_loses_the_file (metrics : pyval) (w : World) :
  writable w = true -> Py.serializable metrics = false ->
  disk (snd (save_metrics metrics w)) = Unparseable
  /\ stderr (snd (save_metrics metrics w))
     = (stderr w ++ [FailedToSaveMetrics TypeError])%list
  /\ fst (load_metrics (snd (save_metrics metrics w)))
     = Ok (fresh_metrics (now w)).
Proof.
  intros W S. destruct w as [d r wr n l e]. cbn [writable] in W. subst wr.
  unfold save_metrics, try_except, bind, Sys.makedirs_and_open_w,
    Sys.json_dump, Sys.print_err. cbn [writable Sys.set_disk].
  rewrite S. cbn [snd disk stderr now].
  split; [reflexivity |]. split; [reflexivity |].
  rewrite load_metrics_unusable; [reflexivity |].
  right. now right.
Qed.

Lemma failed_dump_loses_the_file_witness :
  disk (snd (save_metrics new_daily_stats Run.busy_world)) = Unparseable.
Proof.
  apply (failed_dump_loses_the_file new_daily_stats Run.busy_world);
    reflexivity.
Defined.

(** X9. An invocation that raises has changed nothing: whatever the file
    holds, when [record_agent_invocation] ends with an exception the file
    and the error stream are as they were before the call. *)
Theorem invocation_fails_quietly
  (agent_name task_description : string) (w w' : World) (e : exn) :
  record_agent_invocation agent_name task_description w = (Raise e, w') ->
  disk w' = disk w /\ stderr w' = stderr w.
Proof.
  revert w e w'.
  change (Run.fails_quietly
            (record_agent_invocation agent_name task_description)).
  unfold record_agent_invocation.
  apply fails_quietly_bind; [apply quiet_load | intros metrics].
  apply fails_quietly_bind; [apply quiet_now | intros t_today].
  cbv zeta.
  repeat (apply fails_quietly_bind;
          [first [apply quiet_lift | apply quiet_now] | intros ?]).
  apply fails_quietly_save_ret.
Qed.

Lemma invocation_fails_quietly_witness :
  disk Scenario.braces = disk Scenario.braces
  /\ stderr Scenario.braces = stderr Scenario.braces.
Proof.
  apply (invocation_fails_quietly "agentX" "implement feature"
           Scenario.braces Scenario.braces (KeyError "agents")).
  vm_compute. reflexivity.
Defined.

(* ===================================================================== *)
(** * What one invocation does to a store *)
(* ===================================================================== *)

Section Effects.

Import Store.

Lemma assoc_dict_set_other {V : Type} (k k' : string) (v : V)
  (d : list (string * V)) :
  k' <> k -> assoc k' (dict_set k v d) = assoc k' d.
Proof.
  intros Hne. induction d as [| [k0 v0] d IH]; simpl.
  - destruct (String.eqb_spec k' k); [contradiction | reflexivity].
  - destruct (String.eqb_spec k k0) as [-> | Hk]; simpl.
    + destruct (String.eqb_spec k' k0); [contradiction | reflexivity].
    + destruct (String.eqb k' k0); [reflexivity | exact IH].
Qed.

Lemma forallb_dict_set {V : Type} (P : string * V -> bool) (k : string)
  (v : V) (d : list (string * V)) :
  (forall k1 k2, P (k1, v) = P (k2, v)) ->
  forallb P d = true -> P (k, v) = true ->
  forallb P (dict_set k v d) = true.
Proof.
  intros Hk Hd Hv. induction d as [| [k0 v0] d IH]; simpl.
  - now rewrite Hv.
  - simpl in Hd. apply andb_true_iff in Hd as [H0 Hd].
    destruct (String.eqb k k0); simpl.
    + now rewrite Hv, Hd.
    + now rewrite H0, IH.
Qed.

Lemma forallb_filter {A : Type} (P p : A -> bool) (l : list A) :
  forallb P l = true -> forallb P (filter p l) = true.
Proof.
  induction l as [| x l IH]; simpl; [reflexivity |].
  rewrite andb_true_iff. intros [Hx Hl].
  destruct (p x); simpl; [rewrite Hx |]; auto.
Qed.

Lemma length_take (n : nat) (s : string) :
  (String.length (PyStr.take n s) <= n)%nat.
Proof.
  revert s. induction n as [| n IH]; intros [| c s]; simpl; try lia.
  specialize (IH s). lia.
Qed.

Lemma estimate_range (text : string) :
  1 <= estimate_task_complexity text <= 5.
Proof.
  unfold estimate_task_complexity.
  pose proof (loop_bounds (PyStr.split (PyStr.lower text)) 1).
  destruct (200 <? PyStr.len text); lia.
Qed.

Lemma well_formed_new_call (t : datetime) (task_description : string) :
  Datetime.valid t = true ->
  Run.well_formed_call (new_call t task_description) = true.
Proof.
  intros Ht. unfold Run.well_formed_call, new_call, PyStr.len.
  cbn [timestamp task complexity]. rewrite Ht.
  pose proof (length_take 100 task_description).
  pose proof (estimate_range task_description).
  rewrite !andb_true_iff, !Z.leb_le. lia.
Qed.

Lemma well_formed_stats_of (s : MetricsStore) (name : string) :
  Run.well_formed s = true ->
  forallb Run.well_formed_call (recent_calls (Run.stats_of name s)) = true.
Proof.
  unfold Run.well_formed, Run.stats_of. rewrite forallb_forall. intros H.
  destruct (assoc name (agents s)) as [a |] eqn:Ha; [| reflexivity].
  apply assoc_In in Ha. exact (H _ Ha).
Qed.

Lemma well_formed_valid_timestamps (s : MetricsStore) :
  Run.well_formed s = true -> valid_timestamps s = true.
Proof.
  unfold Run.well_formed, valid_timestamps. rewrite !forallb_forall.
  intros H kv Hkv. specialize (H kv Hkv). rewrite forallb_forall in *.
  intros c Hc. specialize (H c Hc). unfold Run.well_formed_call in H.
  rewrite !andb_true_iff in H. tauto.
Qed.

(** The heart of the section: in a ready world the script returns the
    Python value of [Run.after], and then saves it. *)
Lemma invocation_on_ready_store (agent_name task_description : string)
  (s : MetricsStore) (cutoff : datetime) (w : World) :
  Run.ready s cutoff w ->
  exists d,
    assoc (Datetime.strftime_ymd (Sys.reading 0 w)) (daily_stats s) = Some d
    /\ Run.after agent_name task_description cutoff s w
       = mkStore
           (dict_set agent_name
              (record_agent (Sys.reading 1 w) cutoff task_description
                 (Run.stats_of agent_name s))
              (agents s))
           (dict_set (Datetime.strftime_ymd (Sys.reading 0 w))
              (record_day agent_name d) (daily_stats s))
           (last_cleanup s)
    /\ record_agent_invocation agent_name task_description w
       = (Ok (to_py (Run.after agent_name task_description cutoff s w)),
          snd (save_metrics
                 (to_py (Run.after agent_name task_description cutoff s w))
                 (Sys.tick (Sys.tick (Sys.tick w))))).
Proof.
  intros (R & D & WF & Hday & Hcall & Hcut).
  unfold has_key in Hday.
  destruct (assoc (Datetime.strftime_ymd (Sys.reading 0 w)) (daily_stats s))
    as [d |] eqn:Hd; [| discriminate].
  exists d. split; [reflexivity |].
  assert (E : Store.record agent_name task_description
                (Datetime.strftime_ymd (Sys.reading 0 w)) (Sys.reading 1 w)
                cutoff s
              = Some (mkStore
                        (dict_set agent_name
                           (record_agent (Sys.reading 1 w) cutoff
                              task_description (Run.stats_of agent_name s))
                           (agents s))
                        (dict_set (Datetime.strftime_ymd (Sys.reading 0 w))
                           (record_day agent_name d) (daily_stats s))
                        (last_cleanup s))).
  { unfold Store.record. now rewrite Hd. }
  unfold Run.after. rewrite E. split; [reflexivity |].
  apply (record_agent_invocation_on_store _ _ s _ cutoff w w
           (load_metrics_document w _ R D)
           (well_formed_valid_timestamps s WF) Hcall Hcut E).
Qed.

Lemma busy_world_ready : Run.ready Run.busy Run.busy_cutoff Run.busy_world.
Proof. repeat split. Qed.

End Effects.

Section EffectsOfOneCall.

Import Store.

Lemma stats_of_after (name : string) (a : AgentStats)
  (ags : list (string * AgentStats)) (days : list (string * DailyStats))
  (lc : datetime) :
  Run.stats_of name (mkStore (dict_set name a ags) days lc) = a.
Proof.
  unfold Run.stats_of. cbn [agents]. now rewrite assoc_dict_set_same.
Qed.

Lemma day_of_after (today : string) (d : DailyStats)
  (ags : list (string * AgentStats)) (days : list (string * DailyStats))
  (lc : datetime) :
  Run.day_of today (mkStore ags (dict_set today d days) lc) = d.
Proof.
  unfold Run.day_of. cbn [daily_stats]. now rewrite assoc_dict_set_same.
Qed.

Lemma sum_bounds (zs : list Z) (a : Z) :
  (forall z, In z zs -> 1 <= z <= 5) ->
  a + Z.of_nat (length zs) <= fold_left Z.add zs a
  <= a + 5 * Z.of_nat (length zs).
Proof.
  revert a. induction zs as [| z zs IH]; intros a H.
  - simpl. lia.
  - cbn [fold_left length]. rewrite Nat2Z.inj_succ.
    pose proof (H z (or_introl eq_refl)).
    specialize (IH (a + z) (fun x Hx => H x (or_intror Hx))). lia.
Qed.

(** The mean of complexities between 1 and 5 lies between 1 and 5. *)
Lemma mean_complexity_range (l : list CallRecord) :
  l <> [] ->
  (forall c, In c l -> 1 <= complexity c <= 5) ->
  (1 <= Py.num_Q (mean_complexity l) <= 5)%Q.
Proof.
  intros Hne H. unfold mean_complexity, sum_complexity. cbn [Py.num_Q].
  rewrite Qred_correct.
  assert (Hlen : 0 < Z.of_nat (length l))
    by (destruct l; [contradiction | simpl; lia]).
  assert (Hs : 0 + Z.of_nat (length (map complexity l))
               <= fold_left Z.add (map complexity l) 0
               <= 0 + 5 * Z.of_nat (length (map complexity l))).
  { apply sum_bounds. intros z Hz.
    apply in_map_iff in Hz as [c [<- Hc]]. now apply H. }
  rewrite length_map in Hs.
  assert (Hpos : (0 < inject_Z (Z.of_nat (length l)))%Q)
    by (change 0%Q with (inject_Z 0); rewrite <- Zlt_Qlt; lia).
  split.
  - apply Qle_shift_div_l; [exact Hpos |].
    rewrite Qmult_1_l, <- Zle_Qle. lia.
  - apply Qle_shift_div_r; [exact Hpos |].
    change 5%Q with (inject_Z 5).
    rewrite <- inject_Z_mult, <- Zle_Qle. lia.
Qed.

End EffectsOfOneCall.

(** X10. The store stays well formed: in a ready world the invocation
    returns a store in which every recent call still has a time stamp that
    parses, a task of at most 100 characters and a complexity from 1 to 5,
    and which still has the entry of the day. *)
Theorem invocation_keeps_store_well_formed
  (agent_name task_description : string) (s : Store.MetricsStore)
  (cutoff : datetime) (w : World) :
  Run.ready s cutoff w ->
  exists s',
    fst (record_agent_invocation agent_name task_description w)
    = Ok (Store.to_py s')
    /\ Run.well_formed s' = true
    /\ has_key (Datetime.strftime_ymd (Sys.reading 0 w))
               (Store.daily_stats s') = true.
Proof.
  intros H.
  destruct (invocation_on_ready_store agent_name task_description s cutoff w
              H) as (d & Hd & EA & ER).
  exists (Run.after agent_name task_description cutoff s w).
  rewrite ER. split; [reflexivity |]. rewrite EA.
  destruct H as (_ & _ & WF & _ & Hcall & _).
  split.
  - unfold Run.well_formed. cbn [Store.agents].
    apply forallb_dict_set; [reflexivity | exact WF |].
    cbn [snd]. unfold Store.record_agent. cbn [Store.recent_calls].
    apply forallb_filter. rewrite forallb_app.
    rewrite (well_formed_stats_of s agent_name WF). cbn [forallb].
    now rewrite (well_formed_new_call _ task_description Hcall).
  - unfold has_key. cbn [Store.daily_stats].
    now rewrite assoc_dict_set_same.
Qed.

Lemma invocation_keeps_store_well_formed_witness :
  exists s',
    fst (record_agent_invocation "agentX" "review the parser"
           Run.busy_world)
    = Ok (Store.to_py s')
    /\ Run.well_formed s' = true
    /\ has_key "2026-11-04" (Store.daily_stats s') = true.
Proof.
  apply (invocation_keeps_store_well_formed "agentX" "review the parser"
           Run.busy Run.busy_cutoff Run.busy_world).
  repeat split.
Defined.

(** X11. One call is counted, and only for the agent: in a ready world
    the invocation raises the [total_calls] of the agent by one (from 0 for
    an agent the store did not know), leaves the statistics of every other
    agent as they were, and does not touch [last_cleanup]. *)
Theorem invocation_counts_one_call
  (agent_name task_description : string) (s : Store.MetricsStore)
  (cutoff : datetime) (w : World) :
  Run.ready s cutoff w ->
  exists s',
    fst (record_agent_invocation agent_name task_description w)
    = Ok (Store.to_py s')
    /\ Store.total_calls (Run.stats_of agent_name s')
       = Store.total_calls (Run.stats_of agent_name s) + 1
    /\ (forall other, other <> agent_name ->
          assoc other (Store.agents s') = assoc other (Store.agents s))
    /\ Store.last_cleanup s' = Store.last_cleanup s.
Proof.
  intros H.
  destruct (invocation_on_ready_store agent_name task_description s cutoff w
              H) as (d & Hd & EA & ER).
  exists (Run.after agent_name task_description cutoff s w).
  rewrite ER. split; [reflexivity |]. rewrite EA.
  rewrite stats_of_after. split; [reflexivity |].
  split; [| reflexivity].
  intros other Hne. cbn [Store.agents].
  now apply assoc_dict_set_other.
Qed.

Lemma invocation_counts_one_call_witness :
  exists s',
    fst (record_agent_invocation "agentZ" "review the parser"
           Run.busy_world)
    = Ok (Store.to_py s')
    /\ Store.total_calls (Run.stats_of "agentZ" s')
       = Store.total_calls (Run.stats_of "agentZ" Run.busy) + 1
    /\ (forall other, other <> "agentZ" ->
          assoc other (Store.agents s') = assoc other (Store.agents Run.busy))
    /\ Store.last_cleanup s' = Store.last_cleanup Run.busy.
Proof.
  apply (invocation_counts_one_call "agentZ" "review the parser"
           Run.busy Run.busy_cutoff Run.busy_world).
  repeat split.
Defined.



(** X13. The average: in a ready world, when the window keeps at least
    one call the [avg_complexity] of the agent is the mean of the
    complexities of the calls kept, a number from 1 to 5; when the window
    keeps none, [avg_complexity] is left as it was. *)
Theorem invocation_sets_the_average
  (agent_name task_description : string) (s : Store.MetricsStore)
  (cutoff : datetime) (w : World) :
  Run.ready s cutoff w ->
  exists s',
    fst (record_agent_invocation agent_name task_description w)
    = Ok (Store.to_py s')
    /\ (Store.recent_calls (Run.stats_of agent_name s') <> [] ->
        Store.avg_complexity (Run.stats_of agent_name s')
        = Store.mean_complexity
            (Store.recent_calls (Run.stats_of agent_name s'))
        /\ (1 <= Py.num_Q (Store.avg_complexity (Run.stats_of agent_name s'))
            <= 5)%Q)
    /\ (Store.recent_calls (Run.stats_of agent_name s') = [] ->
        Store.avg_complexity (Run.stats_of agent_name s')
        = Store.avg_complexity (Run.stats_of agent_name s)).
Proof.
  intros H.
  destruct (invocation_on_ready_store agent_name task_description s cutoff w
              H) as (d & Hd & EA & ER).
  exists (Run.after agent_name task_description cutoff s w).
  rewrite ER. split; [reflexivity |].
  assert (WF : forallb Run.well_formed_call
                 (Store.recent_calls
                    (Run.stats_of agent_name
                       (Run.after agent_name task_description cutoff s w)))
               = true).
  { rewrite EA, stats_of_after.
    destruct H as (_ & _ & WFs & _ & Hcall & _).
    unfold Store.record_agent. cbn [Store.recent_calls].
    apply forallb_filter. rewrite forallb_app.
    rewrite (well_formed_stats_of s agent_name WFs). cbn [forallb].
    now rewrite (well_formed_new_call _ task_description Hcall). }
  rewrite EA in *. rewrite stats_of_after in *.
  unfold Store.record_agent in *.
  cbn [Store.recent_calls Store.avg_complexity] in *.
  set (kept := filter (Store.within_window cutoff)
                 (Store.recent_calls (Run.stats_of agent_name s)
                  ++ [Store.new_call (Sys.reading 1 w) task_description]))
    in *.
  split.
  - intros Hne.
    assert (E : match kept with
                | [] => Store.avg_complexity (Run.stats_of agent_name s)
                | _ :: _ => Store.mean_complexity kept
                end = Store.mean_complexity kept)
      by (destruct kept; [contradiction | reflexivity]).
    rewrite E. split; [reflexivity |].
    apply mean_complexity_range; [exact Hne |].
    intros c Hc. rewrite forallb_forall in WF. specialize (WF c Hc).
    unfold Run.well_formed_call in WF.
    rewrite !andb_true_iff, !Z.leb_le in WF. lia.
  - intros ->. reflexivity.
Qed.

Lemma invocation_sets_the_average_witness :
  exists s',
    fst (record_agent_invocation "agentX" "review the parser"
           Run.busy_world)
    = Ok (Store.to_py s')
    /\ (Store.recent_calls (Run.stats_of "agentX" s') <> [] ->
        Store.avg_complexity (Run.stats_of "agentX" s')
        = Store.mean_complexity
            (Store.recent_calls (Run.stats_of "agentX" s'))
        /\ (1 <= Py.num_Q (Store.avg_complexity (Run.stats_of "agentX" s'))
            <= 5)%Q)
    /\ (Store.recent_calls (Run.stats_of "agentX" s') = [] ->
        Store.avg_complexity (Run.stats_of "agentX" s')
        = Store.avg_complexity (Run.stats_of "agentX" Run.busy)).
Proof.
  apply (invocation_sets_the_average "agentX" "review the parser"
           Run.busy Run.busy_cutoff Run.busy_world).
  repeat split.
Defined.

(** X14. The day: in a ready world the invocation raises the
    [total_calls] of the day by one and makes its [agents_used] the earlier
    agents together with this one, each of them once; [parallel_sessions]
    and the other days are left as they were. *)
Theorem invocation_updates_the_day
  (agent_name task_description : string) (s : Store.MetricsStore)
  (cutoff : datetime) (w : World) :
  Run.ready s cutoff w ->
  exists s',
    fst (record_agent_invocation agent_name task_description w)
    = Ok (Store.to_py s')
    /\ Store.day_total_calls
         (Run.day_of (Datetime.strftime_ymd (Sys.reading 0 w)) s')
       = Store.day_total_calls
           (Run.day_of (Datetime.strftime_ymd (Sys.reading 0 w)) s) + 1
    /\ (forall x,
          In x (Store.agents_used
                  (Run.day_of (Datetime.strftime_ymd (Sys.reading 0 w)) s'))
          <-> In x (Store.agents_used
                      (Run.day_of (Datetime.strftime_ymd (Sys.reading 0 w))
                                  s))
              \/ x = agent_name)
    /\ NoDup (Store.agents_used
                (Run.day_of (Datetime.strftime_ymd (Sys.reading 0 w)) s'))
    /\ Store.parallel_sessions
         (Run.day_of (Datetime.strftime_ymd (Sys.reading 0 w)) s')
       = Store.parallel_sessions
           (Run.day_of (Datetime.strftime_ymd (Sys.reading 0 w)) s)
    /\ (forall other,
          other <> Datetime.strftime_ymd (Sys.reading 0 w) ->
          assoc other (Store.daily_stats s')
          = assoc other (Store.daily_stats s)).
Proof.
  intros H.
  destruct (invocation_on_ready_store agent_name task_description s cutoff w
              H) as (d & Hd & EA & ER).
  exists (Run.after agent_name task_description cutoff s w).
  rewrite ER. split; [reflexivity |]. rewrite EA.
  rewrite day_of_after. unfold Run.day_of at 1 2 3. rewrite Hd.
  unfold Store.record_day.
  cbn [Store.day_total_calls Store.agents_used Store.parallel_sessions
       Store.daily_stats].
  split; [reflexivity |]. split.
  - intros x. rewrite nodup_In, in_app_iff. cbn [In]. intuition congruence.
  - split; [apply NoDup_nodup |]. split; [reflexivity |].
    intros other Hne. now apply assoc_dict_set_other.
Qed.

Lemma invocation_updates_the_day_witness :
  exists s',
    fst (record_agent_invocation "agentX" "review the parser"
           Run.busy_world)
    = Ok (Store.to_py s')
    /\ Store.agents_used (Run.day_of "2026-11-04" s') = ["agentY"; "agentX"].
Proof.
  destruct (invocation_updates_the_day "agentX" "review the parser"
              Run.busy Run.busy_cutoff Run.busy_world)
    as (s' & E & _); [repeat split |].
  exists (Run.after "agentX" "review the parser" Run.busy_cutoff Run.busy
            Run.busy_world).
  split; reflexivity.
Defined.

(** X15. What is returned is what is saved: in a ready world whose
    location can be written, the file holds after the invocation exactly
    the value that the invocation returns, nothing is printed, and the next
    load returns that value. *)
Theorem invocation_saves_what_it_returns
  (agent_name task_description : string) (s : Store.MetricsStore)
  (cutoff : datetime) (w : World) :
  Run.ready s cutoff w -> writable w = true ->
  exists metrics w',
    record_agent_invocation agent_name task_description w = (Ok metrics, w')
    /\ disk w' = Document metrics
    /\ stderr w' = stderr w
    /\ fst (load_metrics w') = Ok metrics.
Proof.
  intros H W.
  destruct (invocation_on_ready_store agent_name task_description s cutoff w
              H) as (d & Hd & _ & ER).
  destruct H as (R & _).
  rewrite ER. do 2 eexists. split; [reflexivity |].
  rewrite save_metrics_writes
    by (rewrite ?writable_tick; auto using serializable_to_py).
  cbn [snd].
  split; [reflexivity |].
  split; [cbn [Sys.set_disk stderr]; now rewrite !stderr_tick |].
  match goal with
  | |- context [Sys.set_disk (Document ?m) ?w3] =>
      rewrite (load_metrics_document (Sys.set_disk (Document m) w3) m);
      [reflexivity
      | cbn [Sys.set_disk readable]; now rewrite !readable_tick
      | reflexivity]
  end.
Qed.

Lemma invocation_saves_what_it_returns_witness :
  exists metrics w',
    record_agent_invocation "agentX" "review the parser" Run.busy_world
    = (Ok metrics, w')
    /\ disk w' = Document metrics
    /\ stderr w' = stderr Run.busy_world
    /\ fst (load_metrics w') = Ok metrics.
Proof.
  apply (invocation_saves_what_it_returns "agentX" "review the parser"
           Run.busy Run.busy_cutoff Run.busy_world);
    [repeat split | reflexivity].
Defined.



(** X17. The first call of a day raises, also with a healthy file: when
    the file holds a well-formed store that has no entry for the day the
    clock shows, the invocation ends with [TypeError] (the new day holds a
    set, to which a list cannot be added); the file and the error stream
    are as before. *)
Theorem first_call_of_a_day_raises
  (agent_name task_description : string) (s : Store.MetricsStore)
  (cutoff : datetime) (w : World) :
  readable w = true -> disk w = Document (Store.to_py s) ->
  Run.well_formed s = true ->
  has_key (Datetime.strftime_ymd (Sys.reading 0 w)) (Store.daily_stats s)
  = false ->
  Datetime.valid (Sys.reading 1 w) = true ->
  Datetime.minus_24h (Sys.reading 2 w) = Some cutoff ->
  exists w',
    record_agent_invocation agent_name task_description w
    = (Raise TypeError, w')
    /\ disk w' = Document (Store.to_py s)
    /\ stderr w' = stderr w.
Proof.
  intros R D WF Hday Hcall Hcut.
  assert (Hd : assoc (Datetime.strftime_ymd (Sys.reading 0 w))
                     (Store.daily_stats s) = None).
  { unfold has_key in Hday.
    destruct (assoc (Datetime.strftime_ymd (Sys.reading 0 w))
                    (Store.daily_stats s)); [discriminate | reflexivity]. }
  rewrite (record_agent_invocation_new_day agent_name task_description s
             cutoff w w (load_metrics_document w _ R D)
             (well_formed_valid_timestamps s WF) Hcall Hcut Hd).
  eexists. split; [reflexivity |].
  now rewrite !disk_tick, !stderr_tick.
Qed.

Lemma first_call_of_a_day_raises_witness :
  exists w',
    record_agent_invocation "agentX" "review the parser"
      (Scenario.a_day_later Run.busy_world)
    = (Raise TypeError, w')
    /\ disk w' = Document (Store.to_py Run.busy)
    /\ stderr w' = [].
Proof.
  apply (first_call_of_a_day_raises "agentX" "review the parser" Run.busy
           (Datetime.mk 2026 11 4 10 30 0 0)
           (Scenario.a_day_later Run.busy_world));
    reflexivity.
Defined.

(* ===================================================================== *)
(** * More on the suggestions and on the script *)
(* ===================================================================== *)

(** X18. On a store the suggestions never raise, come in the order of the
    two checks and are at most two; for an agent the store does not know
    there is none. *)
Theorem suggestions_on_a_store (s : Store.MetricsStore) (name : string) :
  exists suggestions,
    suggest_optimizations (Store.to_py s) name = Ok suggestions
    /\ (suggestions = []
        \/ suggestions = [COMBINE_SIMPLE_TASKS]
        \/ suggestions = [REPETITIVE_TASKS]
        \/ suggestions = [COMBINE_SIMPLE_TASKS; REPETITIVE_TASKS])
    /\ (assoc name (Store.agents s) = None -> suggestions = []).
Proof.
  rewrite suggest_optimizations_of_store. eexists. split; [reflexivity |].
  destruct (assoc name (Store.agents s)) as [a |].
  - split; [| discriminate].
    destruct (Store.many_simple_calls a), (Store.repeats_tasks a); cbn; auto.
  - split; [now left | reflexivity].
Qed.

Section Script.





Lemma eqb_Task (v : pyval) :
  Py.eqb v (PStr "Task") = true -> v = PStr "Task".
Proof.
  destruct v as [| b | z | q | t | l | l | d]; cbn; try discriminate.
  - intros H. apply String.eqb_eq in H. now subst.
Qed.

End Script.

(** X19. Events of other tools are ignored: when the payload is an object
    whose [tool_name] is not "Task" (or is missing), the script reads
    neither the file nor the clock, prints nothing, and ends with
    status 0. *)
Theorem main_ignores_other_tools (d : list (string * pyval)) (w : World) :
  assoc "tool_name" d <> Some (PStr "Task") ->
  main (Some (PDict d)) w = Some (0, w).
Proof.
  intros H. unfold main, main_try. cbn [json_load_stdin Py.get].
  destruct (assoc "tool_name" d) as [v |].
  - destruct (Py.eqb v (PStr "Task")) eqn:E.
    + apply eqb_Task in E. congruence.
    + reflexivity.
  - reflexivity.
Qed.

Lemma main_ignores_other_tools_witness :
  main (Some (PDict [("tool_name", PStr "Edit");
                     ("tool_input", PDict [("file_path", PStr "a.py")])]))
       Run.busy_world
  = Some (0, Run.busy_world).
Proof. apply main_ignores_other_tools. discriminate. Defined.

(** X20. Input that cannot be used is reported and nothing else happens:
    when the standard input is no JSON, or a JSON value that is not an
    object, the script prints one line with the error, leaves the file and
    the clock alone, and ends with status 0. *)
Theorem main_reports_bad_input (w : World) :
  main None w
  = Some (0, snd (Sys.print_err (MonitoringError JSONDecodeError) w))
  /\ forall v, (forall d, v <> PDict d) ->
       main (Some v) w
       = Some (0, snd (Sys.print_err (MonitoringError AttributeError) w)).
Proof.
  split; [reflexivity |].
  intros v H. unfold main, main_try. cbn [json_load_stdin].
  destruct v as [| b | z | q | t | l | l | d]; try reflexivity.
  now destruct (H d).
Qed.



(** X22. An event without [tool_input] is a task for the agent "unknown"
    with an empty description: the script does on it what it does on the
    event that says so. *)
Theorem main_defaults (d : list (string * pyval)) (w : World) :
  assoc "tool_name" d = Some (PStr "Task") ->
  assoc "tool_input" d = None ->
  main (Some (PDict d)) w
  = main (Some (Scenario.task_event "unknown" "")) w.
Proof.
  intros Hn Hi. unfold main, main_try, Scenario.task_event.
  cbn [json_load_stdin Py.get assoc String.eqb Ascii.eqb Bool.eqb Py.eqb
       as_text].
  rewrite Hn, Hi.
  cbn [Py.get assoc String.eqb Ascii.eqb Bool.eqb Py.eqb as_text].
  reflexivity.
Qed.

Lemma main_defaults_witness :
  main (Some (PDict [("tool_name", PStr "Task")])) Run.busy_world
  = main (Some (Scenario.task_event "unknown" "")) Run.busy_world.
Proof. apply main_defaults; reflexivity. Defined.

(* ===================================================================== *)
(** * More on the validators *)
(* ===================================================================== *)

Section Validators.

Lemma find_none_iff {A : Type} (f : A -> bool) (l : list A) :
  find f l = None <-> forall x, In x l -> f x = false.
Proof.
  split; [apply find_none |].
  induction l as [| x l IH]; intros H; [reflexivity |].
  cbn [find]. rewrite (H x (or_introl eq_refl)).
  apply IH. intros y Hy. apply H. now right.
Qed.

Lemma flat_map_nil_iff {A B : Type} (f : A -> list B) (l : list A) :
  flat_map f l = [] <-> forall x, In x l -> f x = [].
Proof.
  induction l as [| x l IH]; cbn [flat_map].
  - split; [intros _ y [] | reflexivity].
  - split.
    + intros H. apply app_eq_nil in H as [Hx Hl].
      intros y [<- | Hy]; [exact Hx | now apply IH].
    + intros H. rewrite (H x (or_introl eq_refl)). cbn.
      apply IH. intros y Hy. apply H. now right.
Qed.

End Validators.

(** X23. What the result validator accepts: a result passes exactly when
    it is not empty, has at least 10 characters once stripped, and, for an
    agent with quality criteria, has at least [min_lines] lines, matches
    every required pattern and matches none of the forbidden patterns, the
    universal ones and those of the agent. An agent without criteria is not
    checked against any pattern. *)
Theorem validate_accepts_iff
  (re_search : string -> string -> bool) (agent_name result_text : string) :
  fst (Validator.validate_agent_result re_search agent_name result_text)
  = true
  <-> result_text <> ""
      /\ 10 <= PyStr.len (PyStr.strip result_text)
      /\ match assoc agent_name Validator.QUALITY_GATES with
         | None => True
         | Some criteria =>
             Validator.min_lines criteria
             <= Z.of_nat (length (PyStr.split_on Validator.newline
                                                 result_text))
             /\ (forall pattern,
                   In pattern (Validator.required_patterns criteria) ->
                   re_search pattern result_text = true)
             /\ (forall pattern,
                   In pattern (Validator.UNIVERSAL_FORBIDDEN
                               ++ Validator.forbidden_patterns criteria) ->
                   re_search pattern result_text = false)
         end.
Proof.
  unfold Validator.validate_agent_result.
  destruct (String.eqb_spec result_text "") as [-> | Hne].
  { cbn [orb fst]. split; [discriminate | intros [H _]; now destruct H]. }
  cbn [orb].
  destruct (PyStr.len (PyStr.strip result_text) <? 10) eqn:L.
  { apply Z.ltb_lt in L. cbn [fst].
    split; [discriminate | intros (_ & H & _); lia]. }
  apply Z.ltb_ge in L.
  destruct (assoc agent_name Validator.QUALITY_GATES) as [c |].
  2: { cbn [fst]. tauto. }
  destruct (Z.of_nat (length (PyStr.split_on Validator.newline result_text))
            <? Validator.min_lines c) eqn:N.
  { apply Z.ltb_lt in N. cbn [fst].
    split; [discriminate | intros (_ & _ & H & _); lia]. }
  apply Z.ltb_ge in N.
  destruct (find (fun pattern => negb (re_search pattern result_text))
                 (Validator.required_patterns c)) as [p |] eqn:F1.
  { apply find_some in F1 as [Hin Hp]. apply negb_true_iff in Hp.
    cbn [fst]. split; [discriminate |].
    intros (_ & _ & _ & Hreq & _). specialize (Hreq p Hin). congruence. }
  rewrite find_none_iff in F1.
  destruct (find (fun pattern => re_search pattern result_text)
                 (Validator.UNIVERSAL_FORBIDDEN
                  ++ Validator.forbidden_patterns c)) as [p |] eqn:F2.
  { apply find_some in F2 as [Hin Hp].
    cbn [fst]. split; [discriminate |].
    intros (_ & _ & _ & _ & Hforb). specialize (Hforb p Hin). congruence. }
  rewrite find_none_iff in F2.
  cbn [fst]. split; [intros _ | reflexivity].
  repeat split; try assumption.
  intros p Hp. specialize (F1 p Hp). now apply negb_false_iff in F1.
Qed.

(** X24. A task without result is reported as too short: when the event
    of a task carries no [tool_result], or carries [null], the validator
    prints the announcement, the failure "Output too short or empty" and
    the advice, whatever the agent, and ends with status 0. *)
Theorem validator_on_missing_result
  (re_search : string -> string -> bool)
  (d i : list (string * pyval)) (agent_name : string) :
  assoc "tool_name" d = Some (PStr "Task") ->
  assoc "tool_input" d = Some (PDict i) ->
  assoc "subagent_type" i = Some (PStr agent_name) ->
  assoc "tool_result" d = None \/ assoc "tool_result" d = Some PNone ->
  ResultValidator.main re_search (Some (PDict d))
  = Some (0, [ ResultValidator.Validating agent_name;
               ResultValidator.GateFailed "Output too short or empty";
               ResultValidator.ConsiderRefining ]).
Proof.
  intros Hn Hi Ha Hr.
  unfold ResultValidator.main, ResultValidator.main_try.
  cbn [json_load_stdin Py.get]. rewrite Hn.
  cbn [Py.eqb String.eqb Ascii.eqb Bool.eqb]. rewrite Hi.
  cbn [Py.get]. rewrite Ha. cbn [as_text].
  destruct Hr as [-> | ->]; reflexivity.
Qed.

Lemma validator_on_missing_result_witness :
  ResultValidator.main (fun _ _ => true)
    (Some (PDict [ ("tool_name", PStr "Task");
                   ("tool_input",
                    PDict [("subagent_type",
                            PStr "code-quality-reviewer")]) ]))
  = Some (0, [ ResultValidator.Validating "code-quality-reviewer";
               ResultValidator.GateFailed "Output too short or empty";
               ResultValidator.ConsiderRefining ]).
Proof.
  apply (validator_on_missing_result (fun _ _ => true)
           [ ("tool_name", PStr "Task");
             ("tool_input",
              PDict [("subagent_type", PStr "code-quality-reviewer")]) ]
           [("subagent_type", PStr "code-quality-reviewer")]);
    try reflexivity.
  now left.
Defined.

(** X25. The validator looks at tasks only: on an object whose
    [tool_name] is not "Task" it prints nothing; on input that is no JSON
    it prints the one line of the error; the status is 0 in both cases. *)
Theorem validator_ignores_other_tools
  (re_search : string -> string -> bool) :
  (forall d, assoc "tool_name" d <> Some (PStr "Task") ->
             ResultValidator.main re_search (Some (PDict d)) = Some (0, []))
  /\ ResultValidator.main re_search None
     = Some (0, [ResultValidator.ValidationError JSONDecodeError]).
Proof.
  split; [| reflexivity].
  intros d H. unfold ResultValidator.main, ResultValidator.main_try.
  cbn [json_load_stdin Py.get].
  destruct (assoc "tool_name" d) as [v |]; [| reflexivity].
  destruct (Py.eqb v (PStr "Task")) eqn:E; [| reflexivity].
  apply eqb_Task in E. congruence.
Qed.

Lemma validator_ignores_other_tools_witness :
  ResultValidator.main (fun _ _ => true)
    (Some (PDict [("tool_name", PStr "Write")]))
  = Some (0, []).
Proof.
  apply (proj1 (validator_ignores_other_tools (fun _ _ => true))).
  discriminate.
Defined.

Section FileContent.

Variable re_match : string -> string -> option string.

Lemma line_violations_nil (line_num : Z) (line : string) :
  FileValidator.line_violations re_match line_num line = []
  <-> forall pattern, In pattern FileValidator.FILE_FORBIDDEN ->
                      re_match pattern line = None.
Proof.
  unfold FileValidator.line_violations. rewrite flat_map_nil_iff.
  split; intros H p Hp; specialize (H p Hp);
    destruct (re_match p line); congruence.
Qed.

Lemma violations_from_nil (lines : list string) (line_num : Z) :
  FileValidator.violations_from re_match line_num lines = []
  <-> forall line, In line lines ->
        PyStr.strip line <> "" ->
        forall pattern, In pattern FileValidator.FILE_FORBIDDEN ->
                        re_match pattern line = None.
Proof.
  revert line_num. induction lines as [| l ls IH]; intros n.
  - split; [intros _ line [] | reflexivity].
  - cbn [FileValidator.violations_from]. split.
    + intros H. apply app_eq_nil in H as [Hl Hls].
      intros line [<- | Hin] Hne.
      * destruct (String.eqb_spec (PyStr.strip l) ""); [contradiction |].
        now apply (line_violations_nil n l).
      * now apply (IH (n + 1)).
    + intros H.
      assert (E : FileValidator.violations_from re_match (n + 1) ls = [])
        by (apply IH; intros line Hin; apply H; now right).
      rewrite E, app_nil_r.
      destruct (String.eqb_spec (PyStr.strip l) "") as [_ | Hne];
        [reflexivity |].
      apply line_violations_nil. now apply H; [left |].
Qed.

End FileContent.

(** X26. What the file validator accepts: a content passes exactly when
    no line that holds something else than whitespace contains a match of
    one of the forbidden patterns; empty lines and lines of whitespace are
    never examined, and the path plays no part. *)
Theorem validate_file_content_accepts_iff
  (re_match : string -> string -> option string)
  (file_path content : string) :
  fst (FileValidator.validate_file_content re_match file_path content)
  = true
  <-> forall line,
        In line (PyStr.split_on Validator.newline content) ->
        PyStr.strip line <> "" ->
        forall pattern, In pattern FileValidator.FILE_FORBIDDEN ->
                        re_match pattern line = None.
Proof.
  unfold FileValidator.validate_file_content.
  destruct (String.eqb_spec content "") as [-> | Hne].
  - cbn. split; [| reflexivity].
    intros _ line [<- | []] H. now destruct H.
  - rewrite <- (violations_from_nil re_match _ 1).
    destruct (FileValidator.violations_from re_match 1
                (PyStr.split_on Validator.newline content));
      cbn; split; congruence.
Qed.

(* ===================================================================== *)
(** * Two more facts on the suggestions and on the missing file *)
(* ===================================================================== *)

Lemma repetitive_suggestion_iff_witness :
  exists suggestions,
    suggest_optimizations (Store.to_py Scenario.five_equal) "agentX"
    = Ok suggestions
    /\ (In REPETITIVE_TASKS suggestions
        <-> (5 < length (Store.recent_calls Scenario.five_equal_agent))%nat
            /\ Store.distinct_recent_tasks Scenario.five_equal_agent < 3).
Proof.
  apply (repetitive_suggestion_iff Scenario.five_equal "agentX"
           Scenario.five_equal_agent).
  reflexivity.
Defined.

(** X28. The script never creates its file: when the metrics file is
    missing, cannot be read or holds no JSON, the invocation works on the
    fresh store, whose day is new, and ends with [TypeError] before
    anything is saved; the file and the error stream are as before. *)
Theorem invocation_never_creates_the_file
  (agent_name task_description : string) (cutoff : datetime) (w : World) :
  unusable w ->
  Datetime.valid (Sys.reading 2 w) = true ->
  Datetime.minus_24h (Sys.reading 3 w) = Some cutoff ->
  exists w',
    record_agent_invocation agent_name task_description w
    = (Raise TypeError, w')
    /\ disk w' = disk w
    /\ stderr w' = stderr w.
Proof.
  intros U Hcall Hcut.
  rewrite (record_agent_invocation_new_day agent_name task_description
             (Store.empty (now w)) cutoff w (Sys.tick w)
             (load_metrics_unusable w U) eq_refl Hcall Hcut eq_refl).
  eexists. split; [reflexivity |].
  now rewrite !disk_tick, !stderr_tick.
Qed.

Lemma invocation_never_creates_the_file_witness :
  exists w',
    record_agent_invocation "agentX" "implement feature"
      (mkWorld Unparseable true true Scenario.t1 [Scenario.t1; Scenario.t2]
               [])
    = (Raise TypeError, w')
    /\ disk w' = Unparseable
    /\ stderr w' = [].
Proof.
  apply (invocation_never_creates_the_file "agentX" "implement feature"
           (Datetime.mk 2026 11 4 10 30 0 0)
           (mkWorld Unparseable true true Scenario.t1
                    [Scenario.t1; Scenario.t2] []));
    [right; now right | reflexivity | reflexivity].
Defined.

(* ===================================================================== *)
(** * Which files are validated *)
(* ===================================================================== *)

Section Paths.

Import FilePath.

Lemma split_on_not_nil (c : ascii) (s : string) : PyStr.split_on c s <> [].
Proof.
  destruct s as [| x s]; cbn [PyStr.split_on]; [discriminate |].
  destruct (Ascii.eqb x c); [discriminate |].
  destruct (PyStr.split_on c s); discriminate.
Qed.

Lemma split_on_absent (c : ascii) (s : string) :
  mentions c s = false -> PyStr.split_on c s = [s].
Proof.
  unfold mentions. induction s as [| x s IH]; [reflexivity |].
  cbn [list_ascii_of_string existsb PyStr.split_on].
  rewrite orb_false_iff. intros [Hx Hs].
  rewrite Ascii.eqb_sym, Hx, (IH Hs). reflexivity.
Qed.

(** The pieces of two texts joined by the separator are the pieces of the
    first followed by the pieces of the second. *)
Lemma split_on_app (c : ascii) (a b : string) :
  PyStr.split_on c (a ++ String c b)
  = (PyStr.split_on c a ++ PyStr.split_on c b)%list.
Proof.
  induction a as [| x a IH].
  - cbn [append PyStr.split_on]. now rewrite Ascii.eqb_refl.
  - cbn [append PyStr.split_on]. rewrite IH.
    destruct (Ascii.eqb x c); [reflexivity |].
    pose proof (split_on_not_nil c a) as Hne.
    destruct (PyStr.split_on c a); [contradiction | reflexivity].
Qed.

Lemma last_app_r {A : Type} (l1 l2 : list A) (d : A) :
  l2 <> [] -> last (l1 ++ l2) d = last l2 d.
Proof.
  intros Hne. induction l1 as [| x l1 IH]; [reflexivity |].
  cbn [app]. rewrite <- IH.
  destruct (l1 ++ l2)%list eqn:E; [| reflexivity].
  apply app_eq_nil in E as [_ E]. contradiction.
Qed.

Lemma mentions_app (c : ascii) (a b : string) :
  mentions c (a ++ b) = mentions c a || mentions c b.
Proof.
  unfold mentions. induction a as [| x a IH]; [reflexivity |].
  cbn [append list_ascii_of_string existsb]. now rewrite IH, orb_assoc.
Qed.

(** The last component of a path that is a directory part, empty or ended
    by a slash, followed by a name without slash, is the name. *)
Lemma basename_of_file (dir file : string) :
  dir = "" \/ (exists d, dir = d ++ "/") ->
  mentions "/" file = false ->
  basename (dir ++ file) = file.
Proof.
  intros Hdir Hfile. unfold basename.
  destruct Hdir as [-> | [d ->]].
  - cbn [append]. now rewrite (split_on_absent _ _ Hfile).
  - rewrite append_assoc. cbn [append].
    rewrite split_on_app, (split_on_absent _ _ Hfile).
    now rewrite last_app_r by discriminate.
Qed.

Lemma skip_dots_app (stem ext : string) :
  skip_dots stem <> "" -> skip_dots (stem ++ ext) = skip_dots stem ++ ext.
Proof.
  induction stem as [| x stem IH]; cbn [skip_dots append].
  - intros H. now destruct H.
  - destruct (Ascii.eqb x "."); [exact IH | reflexivity].
Qed.

Lemma code_extension_shape (ext : string) :
  In ext code_extensions ->
  exists e, ext = String "." e
            /\ mentions "." e = false /\ mentions "/" ext = false.
Proof.
  unfold code_extensions. cbn [In]. intros H.
  repeat (destruct H as [<- | H];
          [eexists; repeat split; reflexivity |]).
  destruct H.
Qed.

End Paths.

(** X29. Code files are validated: a path whose lower-case form is a
    directory part (empty or ended by a slash), a name without slash that
    holds something else than dots, and one of the sixteen code extensions
    is validated, whatever the case in which the path is written. *)
Theorem code_files_are_validated (file_path dir stem ext : string) :
  PyStr.lower file_path = dir ++ stem ++ ext ->
  dir = "" \/ (exists d, dir = d ++ "/") ->
  FilePath.mentions "/" stem = false ->
  FilePath.skip_dots stem <> "" ->
  In ext FilePath.code_extensions ->
  FilePath.should_validate_file file_path = true.
Proof.
  intros Hp Hdir Hslash Hstem Hext.
  destruct (code_extension_shape ext Hext) as (e & -> & Hdot & Hs).
  unfold FilePath.should_validate_file, FilePath.extension. rewrite Hp.
  rewrite basename_of_file;
    [| exact Hdir | now rewrite mentions_app, Hslash, Hs].
  rewrite skip_dots_app by exact Hstem.
  rewrite split_on_app, (split_on_absent _ _ Hdot).
  rewrite last_app_r by discriminate. cbn [last].
  rewrite List.length_app. cbn [length].
  pose proof (split_on_not_nil "." (FilePath.skip_dots stem)) as Hne.
  destruct (PyStr.split_on "." (FilePath.skip_dots stem)) as [| x l] eqn:E;
    [contradiction |].
  assert (L : (1 <? length (x :: l) + 1)%nat = true)
    by (apply Nat.ltb_lt; cbn [length]; lia).
  rewrite L. apply existsb_exists. exists (String "." e).
  split; [exact Hext | apply String.eqb_refl].
Qed.

Lemma code_files_are_validated_witness :
  FilePath.should_validate_file "src/hooks/Agent.Monitor.PY" = true.
Proof.
  apply (code_files_are_validated "src/hooks/Agent.Monitor.PY"
           "src/hooks/" "agent.monitor" ".py").
  - reflexivity.
  - right. exists "src/hooks". reflexivity.
  - reflexivity.
  - discriminate.
  - cbn. tauto.
Defined.

(** X30. Files without extension are skipped: a path whose lower-case form
    is a directory part (empty or ended by a slash) and a name without
    slash that, its leading dots apart, holds no dot ("Makefile", ".py",
    "..env") is not validated. *)
Theorem files_without_extension_are_skipped
  (file_path dir name : string) :
  PyStr.lower file_path = dir ++ name ->
  dir = "" \/ (exists d, dir = d ++ "/") ->
  FilePath.mentions "/" name = false ->
  FilePath.mentions "." (FilePath.skip_dots name) = false ->
  FilePath.should_validate_file file_path = false.
Proof.
  intros Hp Hdir Hslash Hdot.
  unfold FilePath.should_validate_file, FilePath.extension. rewrite Hp.
  rewrite (basename_of_file dir name Hdir Hslash).
  rewrite (split_on_absent _ _ Hdot). reflexivity.
Qed.

Lemma files_without_extension_are_skipped_witness :
  FilePath.should_validate_file "tools/.PY" = false.
Proof.
  apply (files_without_extension_are_skipped "tools/.PY" "tools/" ".py").
  - reflexivity.
  - right. exists "tools". reflexivity.
  - reflexivity.
  - reflexivity.
Defined.
